(** * Temporal catalog and order ledger of the storefront backend

    A shallow embedding of the data-access layer in
    [backend/model/order_dao.py] and of the catalog-list endpoint in
    [backend/controller/product_controller.py] /
    [backend/service/product_service.py].

    Every DAO method runs one SQL statement through a cursor.  The tables are
    lists of rows (in storage order), a statement is a function on those
    lists, and a method is a state-passing computation that may raise. *)

From Stdlib Require Import String ZArith List Bool Lia Sorted.
Import ListNotations.
Open Scope string_scope.
Open Scope list_scope.
Open Scope Z_scope.

(** ** Values *)

(** A DATETIME column, counted in seconds. *)
Definition datetime := Z.

(** The literal '9999-12-31 23:59:59' that marks an open-ended fact. *)
Definition MAX_TIME : datetime := 253402300799.

(** ** Results of a DAO method: a returned value or a raised exception *)

Inductive result (A : Type) : Type :=
| Ok (a : A)
| Raise (msg : string).

Arguments Ok {A} a.
Arguments Raise {A} msg.

(** ** Tables *)

Module Products.
Record row := {
  product_no : Z;
  is_deleted : bool
}.
End Products.

Module ProductDetails.
Record row := {
  product_detail_no   : Z;
  product_id          : Z;
  name                : string;
  price               : Z;
  discount_rate       : option Z;
  discount_start_date : option datetime;
  discount_end_date   : option datetime;
  min_sales_quantity  : Z;
  max_sales_quantity  : Z;
  is_activated        : bool;
  is_displayed        : bool;
  start_time          : datetime;
  close_time          : datetime
}.
End ProductDetails.

Module ProductOptions.
Record row := {
  product_option_no : Z;
  product_id        : Z;
  color_id          : Z;
  size_id           : Z;
  current_quantity  : Z;
  is_deleted        : bool
}.
End ProductOptions.

Module Quantities.
Record row := {
  quantity_no       : Z;
  product_option_id : Z;
  quantity          : option Z;
  start_time        : datetime;
  close_time        : datetime
}.
End Quantities.

Module ProductImages.
Record row := {
  product_id : Z;
  image_id   : Z;
  is_main    : bool;
  close_time : datetime
}.
End ProductImages.

Module Images.
Record row := {
  image_no    : Z;
  image_small : string;
  is_deleted  : bool
}.
End Images.

Module Colors.
Record row := { color_no : Z; name : string }.
End Colors.

Module Sizes.
Record row := { size_no : Z; name : string }.
End Sizes.

Module Users.
Record row := { user_no : Z; name : string; is_deleted : bool }.
End Users.

Module UserShippingDetails.
Record row := {
  user_shipping_detail_no : Z;
  user_id                 : Z;
  receiver                : string;
  address                 : string;
  additional_address      : string;
  zip_code                : string;
  phone_number            : string
}.
End UserShippingDetails.

Module Orders.
Record row := { order_no : Z; user_id : Z }.
End Orders.

Module OrderStatus.
Record row := { order_status_no : Z; name : string }.
End OrderStatus.

Module OrdersDetails.
Record row := {
  order_detail_no  : Z;
  order_id         : Z;
  user_shipping_id : Z;
  order_status_id  : Z;
  total_price      : Z;
  delivery_request : string;
  start_time       : datetime
}.
End OrdersDetails.

Module OrderProduct.
Record row := {
  order_product_no  : Z;
  order_detail_id   : Z;
  product_option_id : Z;
  quantity          : Z
}.
End OrderProduct.

(** ** The database seen through one connection

    [now] is what [NOW()] and [DEFAULT CURRENT_TIMESTAMP] evaluate to; the
    two [next_*] fields are the AUTO_INCREMENT counters of the tables the
    modelled methods insert into. *)

Record db := {
  products              : list Products.row;
  product_details       : list ProductDetails.row;
  product_options       : list ProductOptions.row;
  quantities            : list Quantities.row;
  product_images        : list ProductImages.row;
  images                : list Images.row;
  colors                : list Colors.row;
  sizes                 : list Sizes.row;
  users                 : list Users.row;
  user_shipping_details : list UserShippingDetails.row;
  orders                : list Orders.row;
  order_status          : list OrderStatus.row;
  orders_details        : list OrdersDetails.row;
  order_product         : list OrderProduct.row;
  now                   : datetime;
  next_quantity_no      : Z;
  next_user_shipping_detail_no : Z
}.

Definition set_product_options (d : db) (l : list ProductOptions.row) : db :=
  {| products := products d; product_details := product_details d;
     product_options := l; quantities := quantities d;
     product_images := product_images d; images := images d;
     colors := colors d; sizes := sizes d; users := users d;
     user_shipping_details := user_shipping_details d; orders := orders d;
     order_status := order_status d; orders_details := orders_details d;
     order_product := order_product d; now := now d;
     next_quantity_no := next_quantity_no d;
     next_user_shipping_detail_no := next_user_shipping_detail_no d |}.

Definition set_quantities (d : db) (l : list Quantities.row) (next : Z) : db :=
  {| products := products d; product_details := product_details d;
     product_options := product_options d; quantities := l;
     product_images := product_images d; images := images d;
     colors := colors d; sizes := sizes d; users := users d;
     user_shipping_details := user_shipping_details d; orders := orders d;
     order_status := order_status d; orders_details := orders_details d;
     order_product := order_product d; now := now d;
     next_quantity_no := next;
     next_user_shipping_detail_no := next_user_shipping_detail_no d |}.

Definition set_user_shipping_details (d : db)
    (l : list UserShippingDetails.row) (next : Z) : db :=
  {| products := products d; product_details := product_details d;
     product_options := product_options d; quantities := quantities d;
     product_images := product_images d; images := images d;
     colors := colors d; sizes := sizes d; users := users d;
     user_shipping_details := l; orders := orders d;
     order_status := order_status d; orders_details := orders_details d;
     order_product := order_product d; now := now d;
     next_quantity_no := next_quantity_no d;
     next_user_shipping_detail_no := next |}.

Definition set_now (d : db) (t : datetime) : db :=
  {| products := products d; product_details := product_details d;
     product_options := product_options d; quantities := quantities d;
     product_images := product_images d; images := images d;
     colors := colors d; sizes := sizes d; users := users d;
     user_shipping_details := user_shipping_details d; orders := orders d;
     order_status := order_status d; orders_details := orders_details d;
     order_product := order_product d; now := t;
     next_quantity_no := next_quantity_no d;
     next_user_shipping_detail_no := next_user_shipping_detail_no d |}.

(** ** DAO computations: state passing with exceptions *)

Definition dao (A : Type) : Type := db -> result A * db.

Definition ret {A} (a : A) : dao A := fun d => (Ok a, d).

Definition bind {A B} (m : dao A) (k : A -> dao B) : dao B :=
  fun d =>
    match m d with
    | (Ok a, d') => k a d'
    | (Raise msg, d') => (Raise msg, d')
    end.

Notation "'do' x <- m ;; k" := (bind m (fun x => k))
  (at level 10, x name, m at level 100, k at level 200).

(** [cursor.fetchone()]: the first row of the result set, or [None]. *)
Definition fetchone {A} (rows : list A) : option A := hd_error rows.

(** The value [cursor.execute] returns: the number of rows of the result set
    of a SELECT, or the number of rows a write changed. *)
Definition rowcount {A} (rows : list A) : Z := Z.of_nat (List.length rows).

(** ** The dictionaries the methods receive *)

Module OrderInfo.
Record t := {
  user_no            : Z;
  product_id         : Z;
  color_id           : Z;
  size_id            : Z;
  quantity           : Z;
  product_option_no  : Z;
  receiver           : string;
  address            : string;
  additional_address : string;
  zip_code           : string;
  phone_number       : string
}.
End OrderInfo.

Module UpdateQuantityInfo.
Record t := {
  start_time         : datetime;
  origin_quantity_no : Z
}.
End UpdateQuantityInfo.

(** ** Inventory ledger *)

(** [get_current_quantity]:
    SELECT PO.current_quantity FROM product_options AS PO
    WHERE PO.product_option_no = %(product_option_no)s AND PO.is_deleted = False *)
Definition get_current_quantity_rows (product_option_no : Z) (d : db) : list Z :=
  map ProductOptions.current_quantity
    (filter (fun PO =>
               (ProductOptions.product_option_no PO =? product_option_no)
               && negb (ProductOptions.is_deleted PO))
            (product_options d)).

Definition get_current_quantity (product_option_no : Z) : dao (option Z) :=
  fun d => (Ok (fetchone (get_current_quantity_rows product_option_no d)), d).

(** [update_current_quantity]:
    UPDATE product_options SET current_quantity = current_quantity - %(quantity)s
    WHERE product_option_no = %(product_option_no)s *)
Definition decrement (product_option_no quantity : Z)
    (PO : ProductOptions.row) : ProductOptions.row :=
  if ProductOptions.product_option_no PO =? product_option_no then
    {| ProductOptions.product_option_no := ProductOptions.product_option_no PO;
       ProductOptions.product_id := ProductOptions.product_id PO;
       ProductOptions.color_id := ProductOptions.color_id PO;
       ProductOptions.size_id := ProductOptions.size_id PO;
       ProductOptions.current_quantity :=
         ProductOptions.current_quantity PO - quantity;
       ProductOptions.is_deleted := ProductOptions.is_deleted PO |}
  else PO.

Definition update_current_quantity_affected (order_info : OrderInfo.t) (d : db) : Z :=
  rowcount
    (filter (fun PO =>
               (ProductOptions.product_option_no PO
                  =? OrderInfo.product_option_no order_info)
               && negb (ProductOptions.current_quantity PO - OrderInfo.quantity order_info
                          =? ProductOptions.current_quantity PO))
            (product_options d)).

Definition update_current_quantity (order_info : OrderInfo.t) : dao Z :=
  fun d =>
    let affected_row := update_current_quantity_affected order_info d in
    let d' :=
      set_product_options d
        (map (decrement (OrderInfo.product_option_no order_info)
                        (OrderInfo.quantity order_info))
             (product_options d)) in
    if affected_row <? 0 then (Raise "Query Failed", d') else (Ok 1, d').

(** [get_origin_quantity_no]:
    SELECT quantity_no FROM quantities
    WHERE product_option_id = %(product_option_no)s
      AND close_time = '9999-12-31 23:59:59' *)
Definition open_facts (product_option_no : Z) (d : db) : list Quantities.row :=
  filter (fun Q =>
            (Quantities.product_option_id Q =? product_option_no)
            && (Quantities.close_time Q =? MAX_TIME))
         (quantities d).

Definition get_origin_quantity_no (order_info : OrderInfo.t) : dao (option Z) :=
  fun d =>
    let rows :=
      map Quantities.quantity_no
          (open_facts (OrderInfo.product_option_no order_info) d) in
    let affected_row := rowcount rows in
    if affected_row <? 0 then (Raise "Query Failed", d)
    else (Ok (fetchone rows), d).

(** [update_quantities]:
    UPDATE quantities SET close_time = %(start_time)s
    WHERE quantity_no = %(origin_quantity_no)s *)
Definition close_fact (info : UpdateQuantityInfo.t)
    (Q : Quantities.row) : Quantities.row :=
  if Quantities.quantity_no Q =? UpdateQuantityInfo.origin_quantity_no info then
    {| Quantities.quantity_no := Quantities.quantity_no Q;
       Quantities.product_option_id := Quantities.product_option_id Q;
       Quantities.quantity := Quantities.quantity Q;
       Quantities.start_time := Quantities.start_time Q;
       Quantities.close_time := UpdateQuantityInfo.start_time info |}
  else Q.

Definition update_quantities_affected (info : UpdateQuantityInfo.t) (d : db) : Z :=
  rowcount
    (filter (fun Q =>
               (Quantities.quantity_no Q =? UpdateQuantityInfo.origin_quantity_no info)
               && negb (Quantities.close_time Q =? UpdateQuantityInfo.start_time info))
            (quantities d)).

Definition update_quantities (update_quantity_info : UpdateQuantityInfo.t) : dao Z :=
  fun d =>
    let affected_row := update_quantities_affected update_quantity_info d in
    let d' :=
      set_quantities d
        (map (close_fact update_quantity_info) (quantities d))
        (next_quantity_no d) in
    if affected_row <? 0 then (Raise "Query Failed", d') else (Ok 1, d').

(** [insert_quantities]:
    INSERT INTO quantities (product_option_id, quantity)
    VALUES (%(product_option_no)s,
            (SELECT current_quantity FROM product_options
             WHERE product_option_no = %(product_option_no)s))

    The scalar subquery is NULL on no row and an error on several.  The
    columns the statement leaves out take their defaults: [quantity_no] the
    AUTO_INCREMENT value, [start_time] the current timestamp and
    [close_time] the open-ended literal, which is what
    [get_quantity_start_time] and [get_origin_quantity_no] read back. *)
Definition insert_quantities (order_info : OrderInfo.t) : dao Z :=
  fun d =>
    let no := OrderInfo.product_option_no order_info in
    let sub :=
      map ProductOptions.current_quantity
          (filter (fun PO => ProductOptions.product_option_no PO =? no)
                  (product_options d)) in
    match sub with
    | _ :: _ :: _ => (Raise "Subquery returns more than 1 row", d)
    | _ =>
        let lastrowid := next_quantity_no d in
        let Q := {| Quantities.quantity_no := lastrowid;
                    Quantities.product_option_id := no;
                    Quantities.quantity := fetchone sub;
                    Quantities.start_time := now d;
                    Quantities.close_time := MAX_TIME |} in
        let affected_row := 1 in
        let d' := set_quantities d (quantities d ++ [Q]) (lastrowid + 1) in
        if affected_row <=? 0 then (Raise "QUERY_FAILED", d')
        else (Ok lastrowid, d')
    end.

(** [get_quantity_start_time]:
    SELECT start_time FROM quantities WHERE quantity_no = %s
    followed by [start_time['start_time']], a TypeError on [None]. *)
Definition get_quantity_start_time (quantity_no : Z) : dao datetime :=
  fun d =>
    let rows :=
      map Quantities.start_time
          (filter (fun Q => Quantities.quantity_no Q =? quantity_no)
                  (quantities d)) in
    match fetchone rows with
    | Some start_time => (Ok start_time, d)
    | None => (Raise "TypeError", d)
    end.

(** ** Shipping address *)

Module ShippingInfo.
Record t := {
  receiver           : string;
  address            : string;
  additional_address : string;
  zip_code           : string;
  phone_number       : string
}.
End ShippingInfo.

(** [select_user_shipping_details_info]:
    SELECT USD.receiver, USD.address, USD.additional_address, USD.zip_code,
           USD.phone_number
    FROM user_shipping_details AS USD WHERE USD.user_id = %(user_no)s *)
Definition rows_of_user (user_no : Z) (l : list UserShippingDetails.row)
  : list UserShippingDetails.row :=
  filter (fun USD => UserShippingDetails.user_id USD =? user_no) l.

Definition select_user_shipping_details_info (order_info : OrderInfo.t)
  : dao (option ShippingInfo.t) :=
  fun d =>
    let rows :=
      map (fun USD =>
             {| ShippingInfo.receiver := UserShippingDetails.receiver USD;
                ShippingInfo.address := UserShippingDetails.address USD;
                ShippingInfo.additional_address :=
                  UserShippingDetails.additional_address USD;
                ShippingInfo.zip_code := UserShippingDetails.zip_code USD;
                ShippingInfo.phone_number := UserShippingDetails.phone_number USD |})
          (rows_of_user (OrderInfo.user_no order_info) (user_shipping_details d)) in
    (Ok (fetchone rows), d).

(** The row built from the submitted shipping fields. *)
Definition submitted_address (no : Z) (order_info : OrderInfo.t)
  : UserShippingDetails.row :=
  {| UserShippingDetails.user_shipping_detail_no := no;
     UserShippingDetails.user_id := OrderInfo.user_no order_info;
     UserShippingDetails.receiver := OrderInfo.receiver order_info;
     UserShippingDetails.address := OrderInfo.address order_info;
     UserShippingDetails.additional_address :=
       OrderInfo.additional_address order_info;
     UserShippingDetails.zip_code := OrderInfo.zip_code order_info;
     UserShippingDetails.phone_number := OrderInfo.phone_number order_info |}.

(** [insert_user_shipping_details_info]:
    INSERT INTO user_shipping_details (user_id, receiver, address,
      additional_address, zip_code, phone_number) VALUES (...) *)
Definition insert_user_shipping_details_info (order_info : OrderInfo.t) : dao Z :=
  fun d =>
    let USD := submitted_address (next_user_shipping_detail_no d) order_info in
    let user_shipping_details_info := 1 in
    let d' :=
      set_user_shipping_details d (user_shipping_details d ++ [USD])
        (next_user_shipping_detail_no d + 1) in
    if user_shipping_details_info <=? 0 then (Raise "QUERY_FAILED", d')
    else (Ok 1, d').

(** [update_user_shipping_details_info]:
    UPDATE user_shipping_details SET receiver = ..., address = ...,
      additional_address = ..., zip_code = ..., phone_number = ...
    WHERE user_id = %(user_no)s *)
Definition overwrite_address (order_info : OrderInfo.t)
    (USD : UserShippingDetails.row) : UserShippingDetails.row :=
  if UserShippingDetails.user_id USD =? OrderInfo.user_no order_info then
    submitted_address (UserShippingDetails.user_shipping_detail_no USD) order_info
  else USD.

Definition update_user_shipping_details_info (order_info : OrderInfo.t) : dao Z :=
  fun d =>
    (Ok 1,
     set_user_shipping_details d
       (map (overwrite_address order_info) (user_shipping_details d))
       (next_user_shipping_detail_no d)).

(** ** Catalog snapshot *)

(** [t BETWEEN lo AND hi] as a WHEN condition: a NULL bound makes the
    comparison unknown or false, and the branch is not taken either way. *)
Definition between (t : datetime) (lo hi : option datetime) : bool :=
  match lo, hi with
  | Some a, Some b => (a <=? t) && (t <=? b)
  | _, _ => false
  end.

(** The discount column shared by [get_detail], [get_seller_product_info]
    and [select_product_info]:
    CASE WHEN discount_rate IS NULL THEN 0
         ELSE CASE WHEN discount_start_date IS NULL THEN discount_rate
                   WHEN t BETWEEN discount_start_date AND discount_end_date
                     THEN discount_rate
                   ELSE 0 END END *)
Definition discount_rate_case (discount_rate : option Z)
    (discount_start_date discount_end_date : option datetime)
    (t : datetime) : Z :=
  match discount_rate with
  | None => 0
  | Some rate =>
      match discount_start_date with
      | None => rate
      | Some _ =>
          if between t discount_start_date discount_end_date then rate else 0
      end
  end.

Definition discount_of (PD : ProductDetails.row) (t : datetime) : Z :=
  discount_rate_case (ProductDetails.discount_rate PD)
    (ProductDetails.discount_start_date PD)
    (ProductDetails.discount_end_date PD) t.

(** The same column over the nullable side of a LEFT JOIN. *)
Definition discount_of_nullable (PD : option ProductDetails.row) (t : datetime) : Z :=
  match PD with
  | Some PD => discount_of PD t
  | None => discount_rate_case None None None t
  end.

(** SQL joins over row lists, nested-loop order. *)
Definition inner_join {A B} (rows : list A) (tbl : list B)
    (on : A -> B -> bool) : list (A * B) :=
  flat_map (fun a => map (pair a) (filter (on a) tbl)) rows.

Definition left_join {A B} (rows : list A) (tbl : list B)
    (on : A -> B -> bool) : list (A * option B) :=
  flat_map (fun a =>
              match filter (on a) tbl with
              | [] => [(a, None)]
              | bs => map (fun b => (a, Some b)) bs
              end) rows.

(** A comparison against a column of a row that may be all NULL. *)
Definition nullable {A} (o : option A) (p : A -> bool) : bool :=
  match o with
  | Some a => p a
  | None => false
  end.

(** The open-ended, activated and displayed detail row of a product: the ON
    clause of the LEFT JOIN on product_details. *)
Definition active_detail (P : Products.row) (PD : ProductDetails.row) : bool :=
  (Products.product_no P =? ProductDetails.product_id PD)
  && ProductDetails.is_activated PD
  && ProductDetails.is_displayed PD
  && (ProductDetails.close_time PD =? MAX_TIME).

Module ProductInfo.
Record t := {
  original_price : option Z;
  discount_rate  : Z
}.
End ProductInfo.

(** [select_product_info]: products LEFT JOIN product_details, restricted
    to the product that is not deleted. *)
Definition select_product_info_rows (order_info : OrderInfo.t) (d : db)
  : list ProductInfo.t :=
  map (fun '(P, PD) =>
         {| ProductInfo.original_price := option_map ProductDetails.price PD;
            ProductInfo.discount_rate := discount_of_nullable PD (now d) |})
      (filter (fun '(P, PD) =>
                 negb (Products.is_deleted P)
                 && (Products.product_no P =? OrderInfo.product_id order_info))
              (left_join (products d) (product_details d) active_detail)).

Definition select_product_info (order_info : OrderInfo.t) : dao ProductInfo.t :=
  fun d =>
    match fetchone (select_product_info_rows order_info d) with
    | None => (Raise "THIS_PRODUCT_DOES_NOT_EXISTS", d)
    | Some product_info => (Ok product_info, d)
    end.

Module SellerProductInfo.
Record t := {
  product_id     : Z;
  color_name     : option string;
  color_id       : option Z;
  size_name      : option string;
  size_id        : option Z;
  name           : option string;
  original_price : option Z;
  image_small    : option string;
  discount_rate  : Z
}.
End SellerProductInfo.

(** [get_seller_product_info]: products LEFT JOIN product_details,
    product_images, images, product_options, colors and sizes, restricted to
    the product, color and size asked for. *)
Definition get_seller_product_info_rows (product_info : OrderInfo.t) (d : db)
  : list SellerProductInfo.t :=
  let j1 := left_join (products d) (product_details d) active_detail in
  let j2 := left_join j1 (product_images d)
              (fun '(P, PD) PI =>
                 (Products.product_no P =? ProductImages.product_id PI)
                 && ProductImages.is_main PI
                 && (ProductImages.close_time PI =? MAX_TIME)) in
  let j3 := left_join j2 (images d)
              (fun '(P, PD, PI) IM =>
                 nullable PI (fun PI => ProductImages.image_id PI =? Images.image_no IM)
                 && negb (Images.is_deleted IM)) in
  let j4 := left_join j3 (product_options d)
              (fun '(P, PD, PI, IM) PO =>
                 (Products.product_no P =? ProductOptions.product_id PO)
                 && negb (ProductOptions.is_deleted PO)) in
  let j5 := left_join j4 (colors d)
              (fun '(P, PD, PI, IM, PO) C =>
                 nullable PO (fun PO => ProductOptions.color_id PO =? Colors.color_no C)) in
  let j6 := left_join j5 (sizes d)
              (fun '(P, PD, PI, IM, PO, C) SZ =>
                 nullable PO (fun PO => ProductOptions.size_id PO =? Sizes.size_no SZ)) in
  map (fun '(P, PD, PI, IM, PO, C, SZ) =>
         {| SellerProductInfo.product_id := Products.product_no P;
            SellerProductInfo.color_name := option_map Colors.name C;
            SellerProductInfo.color_id := option_map Colors.color_no C;
            SellerProductInfo.size_name := option_map Sizes.name SZ;
            SellerProductInfo.size_id := option_map Sizes.size_no SZ;
            SellerProductInfo.name := option_map ProductDetails.name PD;
            SellerProductInfo.original_price := option_map ProductDetails.price PD;
            SellerProductInfo.image_small := option_map Images.image_small IM;
            SellerProductInfo.discount_rate := discount_of_nullable PD (now d) |})
      (filter (fun '(P, PD, PI, IM, PO, C, SZ) =>
                 negb (Products.is_deleted P)
                 && (Products.product_no P =? OrderInfo.product_id product_info)
                 && nullable C (fun C => Colors.color_no C =? OrderInfo.color_id product_info)
                 && nullable SZ (fun SZ => Sizes.size_no SZ =? OrderInfo.size_id product_info))
              j6).

Definition get_seller_product_info (product_info : OrderInfo.t)
  : dao SellerProductInfo.t :=
  fun d =>
    match fetchone (get_seller_product_info_rows product_info d) with
    | None => (Raise "THIS_PRODUCT_DOES_NOT_EXISTS", d)
    | Some seller_product_info => (Ok seller_product_info, d)
    end.

(** ** Historical order display *)

Module OrderDetail.
Record t := {
  order_no           : Z;
  order_time         : datetime;
  order_detail_no    : Z;
  paid_time          : datetime;
  order_status       : string;
  orderer            : string;
  phone_number       : string;
  product_no         : Z;
  product_name       : string;
  original_price     : Z;
  total_price        : Z;
  color              : string;
  size               : string;
  quantity           : Z;
  user_no            : Z;
  receiver           : string;
  address            : string;
  additional_address : string;
  zip_code           : string;
  delivery_request   : string;
  discount_rate      : Z
}.
End OrderDetail.

(** The ON clause that picks the product_details fact for an order, in
    [get_detail] and in [get_ordercompleted_list] alike:
    P1.start_time >= P7.start_time AND P7.close_time >= P1.start_time *)
Definition valid_at_order (P1 : OrdersDetails.row) (P7 : ProductDetails.row) : bool :=
  (OrdersDetails.start_time P1 >=? ProductDetails.start_time P7)
  && (ProductDetails.close_time P7 >=? OrdersDetails.start_time P1).

(** [get_detail]: the eleven-table inner join, restricted to one order
    detail. *)
Definition get_detail_rows (order_detail_id : Z) (d : db) : list OrderDetail.t :=
  let j2 := inner_join (orders_details d) (orders d)
              (fun P1 P2 => OrdersDetails.order_id P1 =? Orders.order_no P2) in
  let j3 := inner_join j2 (order_status d)
              (fun '(P1, P2) P3 =>
                 OrdersDetails.order_status_id P1 =? OrderStatus.order_status_no P3) in
  let j4 := inner_join j3 (user_shipping_details d)
              (fun '(P1, P2, P3) P4 =>
                 OrdersDetails.user_shipping_id P1
                   =? UserShippingDetails.user_shipping_detail_no P4) in
  let j11 := inner_join j4 (order_product d)
              (fun '(P1, P2, P3, P4) P11 =>
                 OrdersDetails.order_detail_no P1 =? OrderProduct.order_detail_id P11) in
  let j5 := inner_join j11 (product_options d)
              (fun '(P1, P2, P3, P4, P11) P5 =>
                 OrderProduct.product_option_id P11
                   =? ProductOptions.product_option_no P5) in
  let j6 := inner_join j5 (products d)
              (fun '(P1, P2, P3, P4, P11, P5) P6 =>
                 ProductOptions.product_id P5 =? Products.product_no P6) in
  let j7 := inner_join j6 (product_details d)
              (fun '(P1, P2, P3, P4, P11, P5, P6) P7 =>
                 (ProductOptions.product_id P5 =? ProductDetails.product_id P7)
                 && valid_at_order P1 P7) in
  let j8 := inner_join j7 (colors d)
              (fun '(P1, P2, P3, P4, P11, P5, P6, P7) P8 =>
                 ProductOptions.color_id P5 =? Colors.color_no P8) in
  let j9 := inner_join j8 (sizes d)
              (fun '(P1, P2, P3, P4, P11, P5, P6, P7, P8) P9 =>
                 ProductOptions.size_id P5 =? Sizes.size_no P9) in
  let j10 := inner_join j9 (users d)
              (fun '(P1, P2, P3, P4, P11, P5, P6, P7, P8, P9) P10 =>
                 Orders.user_id P2 =? Users.user_no P10) in
  map (fun '(P1, P2, P3, P4, P11, P5, P6, P7, P8, P9, P10) =>
         {| OrderDetail.order_no := Orders.order_no P2;
            OrderDetail.order_time := OrdersDetails.start_time P1;
            OrderDetail.order_detail_no := OrdersDetails.order_detail_no P1;
            OrderDetail.paid_time := OrdersDetails.start_time P1;
            OrderDetail.order_status := OrderStatus.name P3;
            OrderDetail.orderer := Users.name P10;
            OrderDetail.phone_number := UserShippingDetails.phone_number P4;
            OrderDetail.product_no := Products.product_no P6;
            OrderDetail.product_name := ProductDetails.name P7;
            OrderDetail.original_price := ProductDetails.price P7;
            OrderDetail.total_price := OrdersDetails.total_price P1;
            OrderDetail.color := Colors.name P8;
            OrderDetail.size := Sizes.name P9;
            OrderDetail.quantity := OrderProduct.quantity P11;
            OrderDetail.user_no := Users.user_no P10;
            OrderDetail.receiver := UserShippingDetails.receiver P4;
            OrderDetail.address := UserShippingDetails.address P4;
            OrderDetail.additional_address :=
              UserShippingDetails.additional_address P4;
            OrderDetail.zip_code := UserShippingDetails.zip_code P4;
            OrderDetail.delivery_request := OrdersDetails.delivery_request P1;
            OrderDetail.discount_rate :=
              discount_of P7 (OrdersDetails.start_time P1) |})
      (filter (fun '(P1, P2, P3, P4, P11, P5, P6, P7, P8, P9, P10) =>
                 OrdersDetails.order_detail_no P1 =? order_detail_id)
              j10).

Definition get_detail (order_detail_id : Z) : dao (option OrderDetail.t) :=
  fun d => (Ok (fetchone (get_detail_rows order_detail_id d)), d).

(** ** Catalog list endpoint *)

Module ProductList.

(** The document handed to [jsonify]: a 'data' member, whose value is an
    array or null, or a 'message' member. *)
Inductive body (product : Type) : Type :=
| Data (data : option (list product))
| Message (message : string).

Arguments Data {product} data.
Arguments Message {product} message.

Section endpoint.
Variables connection product : Type.

(** [connection.get_connection] and [ProductDao.select_product_list] are
    collaborators outside these sources: the first yields a
    connection, a falsy value or an exception, the second a list of
    products, [None] or an exception. *)
Variable get_connection : result (option connection).
Variable select_product_list : connection -> result (option (list product)).

(** [ProductService.get_product_list] *)
Definition get_product_list (db_connection : connection)
  : result (option (list product)) :=
  select_product_list db_connection.

(** Python's [not products]. *)
Definition not_ (products : option (list product)) : bool :=
  match products with
  | None | Some [] => true
  | Some (_ :: _) => false
  end.

(** [product_list], the view behind GET /product: the JSON document and
    the status code it returns.  The [except] clause hands the exception
    object itself to [jsonify], unlike the other views, which format it
    with an f-string; [jsonify] cannot serialise it and raises a TypeError
    inside the handler, so on that path the view returns no response. *)
Definition product_list : result (body product * Z) :=
  match get_connection with
  | Raise e => Raise "TypeError"
  | Ok None => Ok (Message "NO_DATABASE_CONNECTION", 500)
  | Ok (Some db_connection) =>
      match get_product_list db_connection with
      | Raise e => Raise "TypeError"
      | Ok products =>
          if not_ products then Ok (Data (Some []), 200)
          else Ok (Data products, 200)
      end
  end.
End endpoint.

Arguments get_product_list {connection product} select_product_list db_connection.
Arguments not_ {product} products.
Arguments product_list {connection product} get_connection select_product_list.

End ProductList.

(** ** Sequences of DAO calls issued by the order service *)

(** Modelled from the spec: the order service that calls the shipping-address
    methods is not among the sources.  Section 4.4 step 5, and the docstring
    of [select_user_shipping_details_info], give the sequence: read the
    user's address; with none on file insert one from the submitted fields,
    otherwise update the one on file. *)
Definition upsert_user_shipping_details (order_info : OrderInfo.t) : dao Z :=
  do user_shipping_details_info <- select_user_shipping_details_info order_info ;;
  match user_shipping_details_info with
  | None => insert_user_shipping_details_info order_info
  | Some _ => update_user_shipping_details_info order_info
  end.

(** Modelled from the spec: the order service that runs a placement as one
    transaction is not among the sources.  Section 5: when a step fails the
    whole transaction is rolled back and nothing of the attempt is
    persisted. *)
Definition rollback {A} (m : dao A) : dao A :=
  fun d =>
    match m d with
    | (Ok a, d') => (Ok a, d')
    | (Raise msg, _) => (Raise msg, d)
    end.

(** Modelled from the spec: the order service that sequences the inventory
    methods is not among the sources.  Section 4.3: the reservation reads
    the counter (here through [get_current_quantity]), verifies
    current_quantity >= requested_quantity and fails with an out-of-stock
    error, writing nothing, when that does not hold; otherwise the counter
    is decremented and a closed-then-reopened quantity fact is appended
    that reflects the new counter.  The docstring of [insert_quantities]
    says the counter is already decremented when the new fact is written;
    section 4.1 closes the old fact at the start time of the new one and
    aborts when there is no open-ended fact to close; section 7 names the
    failure for an option that is absent or deleted. *)
Definition check_and_reserve (order_info : OrderInfo.t) : dao Z :=
  rollback
    (do current_quantity <-
       get_current_quantity (OrderInfo.product_option_no order_info) ;;
     match current_quantity with
     | None => fun d => (Raise "NotFound", d)
     | Some current_quantity =>
         if current_quantity >=? OrderInfo.quantity order_info then
           do _ <- update_current_quantity order_info ;;
           do origin <- get_origin_quantity_no order_info ;;
           match origin with
           | None => fun d => (Raise "ConsistencyViolation", d)
           | Some origin_quantity_no =>
               do quantity_no <- insert_quantities order_info ;;
               do start_time <- get_quantity_start_time quantity_no ;;
               update_quantities
                 {| UpdateQuantityInfo.start_time := start_time;
                    UpdateQuantityInfo.origin_quantity_no := origin_quantity_no |}
           end
         else fun d => (Raise "OutOfStock", d)
     end).

(** The store after the address upserts of a run of orders, in turn. *)
Definition upsert_all (orders : list OrderInfo.t) (d : db) : db :=
  fold_left (fun d order_info =>
               snd (upsert_user_shipping_details order_info d))
            orders d.

(** ** Invariants of the store *)

(** The counter and the ledger in lockstep: every open-ended quantity fact
    of an option carries the option's counter. *)
Definition lockstep (d : db) : Prop :=
  forall PO Q,
    In PO (product_options d) ->
    In Q (quantities d) ->
    Quantities.product_option_id Q = ProductOptions.product_option_no PO ->
    Quantities.close_time Q = MAX_TIME ->
    Quantities.quantity Q = Some (ProductOptions.current_quantity PO).

(** [product_option_no] is the primary key of product_options. *)
Definition option_key (d : db) : Prop :=
  NoDup (map ProductOptions.product_option_no (product_options d)).

(** The AUTO_INCREMENT counter of quantities is beyond every key in use. *)
Definition quantity_no_fresh (d : db) : Prop :=
  Forall (fun Q => Quantities.quantity_no Q < next_quantity_no d) (quantities d).

(** At most one shipping address per user. *)
Definition one_address_per_user (l : list UserShippingDetails.row) : Prop :=
  forall user_no, (List.length (rows_of_user user_no l) <= 1)%nat.

(** An address row holds the shipping fields submitted with an order, for
    the user of the order. *)
Definition carries_submitted_fields (order_info : OrderInfo.t)
    (USD : UserShippingDetails.row) : Prop :=
  UserShippingDetails.user_id USD = OrderInfo.user_no order_info
  /\ UserShippingDetails.receiver USD = OrderInfo.receiver order_info
  /\ UserShippingDetails.address USD = OrderInfo.address order_info
  /\ UserShippingDetails.additional_address USD
     = OrderInfo.additional_address order_info
  /\ UserShippingDetails.zip_code USD = OrderInfo.zip_code order_info
  /\ UserShippingDetails.phone_number USD = OrderInfo.phone_number order_info.

(** ** Sample stores *)

Definition empty_db : db :=
  {| products := []; product_details := []; product_options := [];
     quantities := []; product_images := []; images := []; colors := [];
     sizes := []; users := []; user_shipping_details := []; orders := [];
     order_status := []; orders_details := []; order_product := [];
     now := 1000; next_quantity_no := 1; next_user_shipping_detail_no := 1 |}.

(** An order of [quantity] units of option 1 of product 1 by user 1. *)
Definition sample_order (quantity : Z) : OrderInfo.t :=
  {| OrderInfo.user_no := 1; OrderInfo.product_id := 1;
     OrderInfo.color_id := 1; OrderInfo.size_id := 1;
     OrderInfo.quantity := quantity; OrderInfo.product_option_no := 1;
     OrderInfo.receiver := "Kim"; OrderInfo.address := "1 Main Road";
     OrderInfo.additional_address := "Room 2"; OrderInfo.zip_code := "04524";
     OrderInfo.phone_number := "010-0000-0000" |}.

(** Option 1 of product 1 with [stock] units on the counter. *)
Definition sample_option (stock : Z) : ProductOptions.row :=
  {| ProductOptions.product_option_no := 1; ProductOptions.product_id := 1;
     ProductOptions.color_id := 1; ProductOptions.size_id := 1;
     ProductOptions.current_quantity := stock;
     ProductOptions.is_deleted := false |}.

Definition sample_fact (no : Z) (stock : Z) (start close : datetime)
  : Quantities.row :=
  {| Quantities.quantity_no := no; Quantities.product_option_id := 1;
     Quantities.quantity := Some stock;
     Quantities.start_time := start; Quantities.close_time := close |}.

(** Option 1 with [stock] units and its open-ended quantity fact. *)
Definition stocked_db (stock : Z) : db :=
  set_quantities
    (set_product_options empty_db [sample_option stock])
    [sample_fact 1 stock 10 MAX_TIME] 2.

(** Option 1 whose only quantity fact was closed at time 100. *)
Definition closed_only_db : db :=
  set_quantities
    (set_product_options empty_db [sample_option 5])
    [sample_fact 1 5 10 100] 2.

Definition sample_detail (no price : Z) (start close : datetime)
  : ProductDetails.row :=
  {| ProductDetails.product_detail_no := no; ProductDetails.product_id := 1;
     ProductDetails.name := "shirt"; ProductDetails.price := price;
     ProductDetails.discount_rate := Some 20;
     ProductDetails.discount_start_date := Some 19;
     ProductDetails.discount_end_date := Some 21;
     ProductDetails.min_sales_quantity := 1;
     ProductDetails.max_sales_quantity := 20;
     ProductDetails.is_activated := true; ProductDetails.is_displayed := true;
     ProductDetails.start_time := start; ProductDetails.close_time := close |}.

Definition sample_address : UserShippingDetails.row :=
  {| UserShippingDetails.user_shipping_detail_no := 1;
     UserShippingDetails.user_id := 1;
     UserShippingDetails.receiver := "Lee";
     UserShippingDetails.address := "9 Old Street";
     UserShippingDetails.additional_address := "";
     UserShippingDetails.zip_code := "00000";
     UserShippingDetails.phone_number := "010-1111-1111" |}.

(** Product 1 is listed and has no detail row at all. *)
Definition unpriced_db : db :=
  {| products := [ {| Products.product_no := 1; Products.is_deleted := false |} ];
     product_details := [];
     product_options := [sample_option 5];
     quantities := []; product_images := []; images := [];
     colors := [ {| Colors.color_no := 1; Colors.name := "black" |} ];
     sizes := [ {| Sizes.size_no := 1; Sizes.name := "M" |} ];
     users := []; user_shipping_details := []; orders := [];
     order_status := []; orders_details := []; order_product := [];
     now := 1000; next_quantity_no := 1; next_user_shipping_detail_no := 1 |}.

(** Product 1 changed price at time 20: the first fact was closed at the
    start time of the second.  Order detail 1 was placed at that very
    second. *)
Definition boundary_db : db :=
  {| products := [ {| Products.product_no := 1; Products.is_deleted := false |} ];
     product_details :=
       [sample_detail 1 10000 10 20; sample_detail 2 12000 20 MAX_TIME];
     product_options := [sample_option 5];
     quantities := [sample_fact 1 5 10 MAX_TIME];
     product_images := []; images := [];
     colors := [ {| Colors.color_no := 1; Colors.name := "black" |} ];
     sizes := [ {| Sizes.size_no := 1; Sizes.name := "M" |} ];
     users := [ {| Users.user_no := 1; Users.name := "Kim";
                   Users.is_deleted := false |} ];
     user_shipping_details := [sample_address];
     orders := [ {| Orders.order_no := 1; Orders.user_id := 1 |} ];
     order_status :=
       [ {| OrderStatus.order_status_no := 1; OrderStatus.name := "paid" |} ];
     orders_details :=
       [ {| OrdersDetails.order_detail_no := 1; OrdersDetails.order_id := 1;
            OrdersDetails.user_shipping_id := 1;
            OrdersDetails.order_status_id := 1;
            OrdersDetails.total_price := 9600;
            OrdersDetails.delivery_request := "";
            OrdersDetails.start_time := 20 |} ];
     order_product :=
       [ {| OrderProduct.order_product_no := 1;
            OrderProduct.order_detail_id := 1;
            OrderProduct.product_option_id := 1;
            OrderProduct.quantity := 1 |} ];
     now := 1000; next_quantity_no := 2; next_user_shipping_detail_no := 2 |}.

(** The store of [boundary_db] with order detail 1 placed at time 30, after
    the discount window of the detail rows (19 to 21) has ended. *)
Definition late_order_db : db :=
  {| products := products boundary_db;
     product_details := product_details boundary_db;
     product_options := product_options boundary_db;
     quantities := quantities boundary_db;
     product_images := product_images boundary_db; images := images boundary_db;
     colors := colors boundary_db; sizes := sizes boundary_db;
     users := users boundary_db;
     user_shipping_details := user_shipping_details boundary_db;
     orders := orders boundary_db; order_status := order_status boundary_db;
     orders_details :=
       [ {| OrdersDetails.order_detail_no := 1; OrdersDetails.order_id := 1;
            OrdersDetails.user_shipping_id := 1;
            OrdersDetails.order_status_id := 1;
            OrdersDetails.total_price := 12000;
            OrdersDetails.delivery_request := "";
            OrdersDetails.start_time := 30 |} ];
     order_product := order_product boundary_db;
     now := now boundary_db; next_quantity_no := next_quantity_no boundary_db;
     next_user_shipping_detail_no := next_user_shipping_detail_no boundary_db |}.

(** The discount column written out on the columns of a detail row [PD] at
    time [t]: what the rule gives for each shape of rate and window. *)
Definition three_way_rule (PD : ProductDetails.row) (t : datetime) (discount : Z) : Prop :=
  match ProductDetails.discount_rate PD,
        ProductDetails.discount_start_date PD,
        ProductDetails.discount_end_date PD with
  | None, _, _ => discount = 0
  | Some rate, None, _ => discount = rate
  | Some rate, Some discount_start, Some discount_end =>
      (discount_start <= t <= discount_end -> discount = rate)
      /\ (t < discount_start \/ discount_end < t -> discount = 0)
  | Some rate, Some _, None => discount = 0
  end.

(** The facts whose half-open interval [start_time, close_time) holds [t]. *)
Definition facts_at (product_id : Z) (t : datetime) (d : db)
  : list ProductDetails.row :=
  filter (fun PD =>
            (ProductDetails.product_id PD =? product_id)
            && (ProductDetails.start_time PD <=? t)
            && (t <? ProductDetails.close_time PD))
         (product_details d).

(** A product row that is not deleted carries the id. *)
Definition listed (product_id : Z) (d : db) : bool :=
  existsb (fun P => negb (Products.is_deleted P)
                    && (Products.product_no P =? product_id))
          (products d).

(** The open-ended, activated and displayed detail rows of a product id. *)
Definition active_details (product_id : Z) (d : db) : list ProductDetails.row :=
  filter (active_detail {| Products.product_no := product_id;
                           Products.is_deleted := false |})
         (product_details d).

(** The row [select_product_info] builds from the joined detail row. *)
Definition product_info_of (PD : option ProductDetails.row) (d : db)
  : ProductInfo.t :=
  {| ProductInfo.original_price := option_map ProductDetails.price PD;
     ProductInfo.discount_rate := discount_of_nullable PD (now d) |}.

(** User 1 has the address [sample_address] on file. *)
Definition addressed_db : db :=
  set_user_shipping_details empty_db [sample_address] 2.

(** ** Further lookups of the order DAO *)

(** [get_product_option_no]:
    SELECT product_option_no FROM product_options
    WHERE color_id = %(color_id)s AND size_id = %(size_id)s
      AND is_deleted = False AND product_id = %(product_id)s *)
Definition get_product_option_no_rows (order_info : OrderInfo.t) (d : db) : list Z :=
  map ProductOptions.product_option_no
    (filter (fun PO =>
               (ProductOptions.color_id PO =? OrderInfo.color_id order_info)
               && (ProductOptions.size_id PO =? OrderInfo.size_id order_info)
               && negb (ProductOptions.is_deleted PO)
               && (ProductOptions.product_id PO =? OrderInfo.product_id order_info))
            (product_options d)).

Definition get_product_option_no (order_info : OrderInfo.t) : dao (option Z) :=
  fun d => (Ok (fetchone (get_product_option_no_rows order_info d)), d).

Module SalesQuantity.
Record t := {
  min_sales_quantity : option Z;
  max_sales_quantity : option Z
}.
End SalesQuantity.

(** The ON clause of [select_product_quantity_range]:
    P.product_no = PD.product_id AND PD.close_time = '9999-12-31 23:59:59'
    AND PD.is_activated = True AND PD.is_displayed = True *)
Definition range_detail (P : Products.row) (PD : ProductDetails.row) : bool :=
  (Products.product_no P =? ProductDetails.product_id PD)
  && (ProductDetails.close_time PD =? MAX_TIME)
  && ProductDetails.is_activated PD
  && ProductDetails.is_displayed PD.

Definition sales_quantity_of (PD : option ProductDetails.row) : SalesQuantity.t :=
  {| SalesQuantity.min_sales_quantity :=
       option_map ProductDetails.min_sales_quantity PD;
     SalesQuantity.max_sales_quantity :=
       option_map ProductDetails.max_sales_quantity PD |}.

(** [select_product_quantity_range]: products LEFT JOIN product_details,
    restricted to the product that is not deleted; the row count is tested
    against [< 0] before [fetchone]. *)
Definition select_product_quantity_range_rows (product_info : OrderInfo.t) (d : db)
  : list SalesQuantity.t :=
  map (fun '(P, PD) => sales_quantity_of PD)
      (filter (fun '(P, PD) =>
                 negb (Products.is_deleted P)
                 && (Products.product_no P =? OrderInfo.product_id product_info))
              (left_join (products d) (product_details d) range_detail)).

Definition select_product_quantity_range (product_info : OrderInfo.t)
  : dao (option SalesQuantity.t) :=
  fun d =>
    let rows := select_product_quantity_range_rows product_info d in
    let affected_row := rowcount rows in
    if affected_row <? 0 then (Raise "Query Failed", d)
    else (Ok (fetchone rows), d).

(** [select_user_existence]:
    SELECT user_no FROM users WHERE is_deleted = False AND user_no = %s *)
Definition select_user_existence (user_no : Z) : dao (option Z) :=
  fun d =>
    (Ok (fetchone
           (map Users.user_no
                (filter (fun U => negb (Users.is_deleted U)
                                  && (Users.user_no U =? user_no))
                        (users d)))), d).

(** ** The users table with the columns the account queries read *)

Module Accounts.
Record row := {
  user_no     : Z;
  name        : string;
  email       : option string;
  last_access : option datetime;
  created_at  : datetime;
  is_deleted  : bool
}.
End Accounts.

(** The users table and the shipping addresses behind one connection. *)
Record user_db := {
  accounts  : list Accounts.row;
  addresses : list UserShippingDetails.row
}.

(** The address table of a store next to a users table. *)
Definition with_accounts (l : list Accounts.row) (d : db) : user_db :=
  {| accounts := l; addresses := user_shipping_details d |}.

Module OrdererInfo.
Record t := {
  orderer_name       : string;
  orderer_email      : option string;
  receiver           : option string;
  phone_number       : option string;
  address            : option string;
  additional_address : option string;
  zip_code           : option string
}.
End OrdererInfo.

Definition orderer_info_of (U : Accounts.row)
    (USD : option UserShippingDetails.row) : OrdererInfo.t :=
  {| OrdererInfo.orderer_name := Accounts.name U;
     OrdererInfo.orderer_email := Accounts.email U;
     OrdererInfo.receiver := option_map UserShippingDetails.receiver USD;
     OrdererInfo.phone_number := option_map UserShippingDetails.phone_number USD;
     OrdererInfo.address := option_map UserShippingDetails.address USD;
     OrdererInfo.additional_address :=
       option_map UserShippingDetails.additional_address USD;
     OrdererInfo.zip_code := option_map UserShippingDetails.zip_code USD |}.

(** [get_orderer_info]:
    SELECT U.name, U.email, USD.receiver, USD.phone_number, USD.address,
           USD.additional_address, USD.zip_code
    FROM users AS U LEFT JOIN user_shipping_details AS USD
      ON U.user_no = USD.user_id
    WHERE U.is_deleted = False AND U.user_no = %s *)
Definition get_orderer_info_rows (user_no : Z) (u : user_db) : list OrdererInfo.t :=
  map (fun '(U, USD) => orderer_info_of U USD)
      (filter (fun '(U, USD) =>
                 negb (Accounts.is_deleted U) && (Accounts.user_no U =? user_no))
              (left_join (accounts u) (addresses u)
                 (fun U USD =>
                    Accounts.user_no U =? UserShippingDetails.user_id USD))).

Definition get_orderer_info (user_no : Z) (u : user_db) : result OrdererInfo.t :=
  match fetchone (get_orderer_info_rows user_no u) with
  | None => Raise "UNAUTHORIZED"
  | Some orderer_info => Ok orderer_info
  end.

(** ** User list of the account DAO *)

(** [LIMIT limit OFFSET offset]; a negative number is a syntax error of
    the statement. *)
Definition limit_offset {A} (limit offset : Z) (rows : list A) : result (list A) :=
  if (limit <? 0) || (offset <? 0) then Raise "ProgrammingError"
  else Ok (firstn (Z.to_nat limit) (skipn (Z.to_nat offset) rows)).

Module Pagination.
Record t := { limit : Z; offset : Z }.
End Pagination.

Module UserList.
Record t := {
  user_no      : Z;
  name         : string;
  email        : option string;
  last_access  : option datetime;
  created_at   : datetime;
  phone_number : option string
}.
End UserList.

(** [UserDao.get_user_list]:
    SELECT users.user_no, users.name, users.email, users.last_access,
           users.created_at, user_shipping_details.phone_number
    FROM users LEFT JOIN user_shipping_details
      ON users.user_no = user_shipping_details.user_id
    WHERE users.is_deleted = 0 LIMIT %(limit)s OFFSET %(offset)s *)
Definition get_user_list_rows (u : user_db) : list UserList.t :=
  map (fun '(U, USD) =>
         {| UserList.user_no := Accounts.user_no U;
            UserList.name := Accounts.name U;
            UserList.email := Accounts.email U;
            UserList.last_access := Accounts.last_access U;
            UserList.created_at := Accounts.created_at U;
            UserList.phone_number :=
              option_map UserShippingDetails.phone_number USD |})
      (filter (fun '(U, USD) => negb (Accounts.is_deleted U))
              (left_join (accounts u) (addresses u)
                 (fun U USD =>
                    Accounts.user_no U =? UserShippingDetails.user_id USD))).

Definition get_user_list (pagination : Pagination.t) (u : user_db)
  : result (list UserList.t) :=
  limit_offset (Pagination.limit pagination) (Pagination.offset pagination)
    (get_user_list_rows u).

(** [UserDao.get_total_user]:
    SELECT COUNT( * ) AS total_number FROM users WHERE users.is_deleted = 0 *)
Definition get_total_user (u : user_db) : Z :=
  rowcount (filter (fun U => negb (Accounts.is_deleted U)) (accounts u)).

(** The columns of an account that the order queries read. *)
Definition user_of_account (U : Accounts.row) : Users.row :=
  {| Users.user_no := Accounts.user_no U;
     Users.name := Accounts.name U;
     Users.is_deleted := Accounts.is_deleted U |}.

(** The shipping fields submitted with an order, as [get_orderer_info]
    shows them. *)
Definition submitted_orderer_info (U : Accounts.row) (order_info : OrderInfo.t)
  : OrdererInfo.t :=
  {| OrdererInfo.orderer_name := Accounts.name U;
     OrdererInfo.orderer_email := Accounts.email U;
     OrdererInfo.receiver := Some (OrderInfo.receiver order_info);
     OrdererInfo.phone_number := Some (OrderInfo.phone_number order_info);
     OrdererInfo.address := Some (OrderInfo.address order_info);
     OrdererInfo.additional_address :=
       Some (OrderInfo.additional_address order_info);
     OrdererInfo.zip_code := Some (OrderInfo.zip_code order_info) |}.

(** The shipping fields submitted with an order, as
    [select_user_shipping_details_info] shows them. *)
Definition submitted_shipping_info (order_info : OrderInfo.t) : ShippingInfo.t :=
  {| ShippingInfo.receiver := OrderInfo.receiver order_info;
     ShippingInfo.address := OrderInfo.address order_info;
     ShippingInfo.additional_address := OrderInfo.additional_address order_info;
     ShippingInfo.zip_code := OrderInfo.zip_code order_info;
     ShippingInfo.phone_number := OrderInfo.phone_number order_info |}.

(** The first account that is not deleted and carries the number. *)
Definition find_account (user_no : Z) (l : list Accounts.row) : option Accounts.row :=
  find (fun U => negb (Accounts.is_deleted U) && (Accounts.user_no U =? user_no)) l.

Definition sample_account : Accounts.row :=
  {| Accounts.user_no := 1; Accounts.name := "Kim";
     Accounts.email := Some "kim@example.com"; Accounts.last_access := None;
     Accounts.created_at := 5; Accounts.is_deleted := false |}.

(** ** List of completed orders *)

Module FilterInfo.
Record t := {
  from_date       : option datetime;
  to_date         : option datetime;
  order_detail_id : option Z;
  product_name    : option string;
  phone_number    : option string;
  orderer         : option string;
  order_id        : option Z;
  sort            : bool;
  limit           : Z;
  offset          : Z
}.
End FilterInfo.

(** Python truth of a filter value: [None], 0 and the empty string add no
    condition to the statement. *)
Definition given_Z (o : option Z) : option Z :=
  match o with
  | Some v => if v =? 0 then None else Some v
  | None => None
  end.

Definition given_string (o : option string) : option string :=
  match o with
  | Some v => if String.eqb v "" then None else Some v
  | None => None
  end.

(** A condition that is part of the statement only when its filter value is
    given. *)
Definition on_given {A} (o : option A) (p : A -> bool) : bool :=
  match o with
  | Some a => p a
  | None => true
  end.

Module OrderCompleted.
Record t := {
  order_time      : datetime;
  order_no        : Z;
  order_detail_no : Z;
  product_name    : string;
  size            : string;
  color           : string;
  quantity        : Z;
  user_name       : string;
  phone_number    : string;
  order_status    : string;
  total_price     : Z
}.
End OrderCompleted.

(** ORDER BY as a stable insertion sort on the key. *)
Fixpoint insert_by {A} (le : A -> A -> bool) (x : A) (l : list A) : list A :=
  match l with
  | [] => [x]
  | y :: l' => if le x y then x :: l else y :: insert_by le x l'
  end.

Definition sort_by {A} (le : A -> A -> bool) (l : list A) : list A :=
  fold_right (insert_by le) [] l.

Section completed_orders.

(** How the server compares strings: the [LIKE] operator and [=] under the
    collation of the columns, which the sources do not fix. *)
Variable like : string -> string -> bool.
Variable str_eq : string -> string -> bool.

Definition completed_row : Type :=
  Orders.row * OrdersDetails.row * OrderProduct.row * ProductOptions.row
  * Sizes.row * Colors.row * ProductDetails.row * OrderStatus.row
  * UserShippingDetails.row * Users.row.

(** The joins and the WHERE clause shared, word for word, by
    [get_ordercompleted_list] and [get_total_num]. *)
Definition completed_rows (filter_info : FilterInfo.t) (d : db)
  : list completed_row :=
  let j3 := inner_join (orders d) (orders_details d)
              (fun P1 P3 =>
                 (Orders.order_no P1 =? OrdersDetails.order_id P3)
                 && (OrdersDetails.order_status_id P3 =? 1)
                 && on_given (FilterInfo.from_date filter_info)
                      (fun from_date => OrdersDetails.start_time P3 >? from_date)
                 && on_given (FilterInfo.to_date filter_info)
                      (fun to_date => OrdersDetails.start_time P3 <? to_date)) in
  let j2 := inner_join j3 (order_product d)
              (fun '(P1, P3) P2 =>
                 (OrdersDetails.order_detail_no P3 =? OrderProduct.order_detail_id P2)
                 && on_given (given_Z (FilterInfo.order_detail_id filter_info))
                      (fun order_detail_id =>
                         OrderProduct.order_product_no P2 =? order_detail_id)) in
  let j8 := inner_join j2 (product_options d)
              (fun '(P1, P3, P2) P8 =>
                 OrderProduct.product_option_id P2
                   =? ProductOptions.product_option_no P8) in
  let j4 := inner_join j8 (sizes d)
              (fun '(P1, P3, P2, P8) P4 =>
                 ProductOptions.size_id P8 =? Sizes.size_no P4) in
  let j5 := inner_join j4 (colors d)
              (fun '(P1, P3, P2, P8, P4) P5 =>
                 ProductOptions.color_id P8 =? Colors.color_no P5) in
  let j6 := inner_join j5 (product_details d)
              (fun '(P1, P3, P2, P8, P4, P5) P6 =>
                 (ProductOptions.product_id P8 =? ProductDetails.product_id P6)
                 && valid_at_order P3 P6
                 && on_given (given_string (FilterInfo.product_name filter_info))
                      (fun product_name => like (ProductDetails.name P6) product_name)) in
  let j9 := inner_join j6 (order_status d)
              (fun '(P1, P3, P2, P8, P4, P5, P6) P9 =>
                 OrdersDetails.order_status_id P3 =? OrderStatus.order_status_no P9) in
  let j7 := inner_join j9 (user_shipping_details d)
              (fun '(P1, P3, P2, P8, P4, P5, P6, P9) P7 =>
                 (OrdersDetails.user_shipping_id P3
                    =? UserShippingDetails.user_shipping_detail_no P7)
                 && on_given (given_string (FilterInfo.phone_number filter_info))
                      (fun phone_number =>
                         str_eq (UserShippingDetails.phone_number P7) phone_number)) in
  let j11 := inner_join j7 (users d)
              (fun '(P1, P3, P2, P8, P4, P5, P6, P9, P7) P11 =>
                 (Orders.user_id P1 =? Users.user_no P11)
                 && on_given (given_string (FilterInfo.orderer filter_info))
                      (fun orderer => str_eq (Users.name P11) orderer)) in
  filter (fun '(P1, P3, P2, P8, P4, P5, P6, P9, P7, P11) =>
            on_given (given_Z (FilterInfo.order_id filter_info))
              (fun order_id => Orders.order_no P1 =? order_id))
         j11.

(** The start time of the order detail of a joined row: the ORDER BY key. *)
Definition completed_time (row : completed_row) : datetime :=
  let '(P1, P3, P2, P8, P4, P5, P6, P9, P7, P11) := row in
  OrdersDetails.start_time P3.

Definition completed_of (row : completed_row) : OrderCompleted.t :=
  let '(P1, P3, P2, P8, P4, P5, P6, P9, P7, P11) := row in
  {| OrderCompleted.order_time := OrdersDetails.start_time P3;
     OrderCompleted.order_no := Orders.order_no P1;
     OrderCompleted.order_detail_no := OrdersDetails.order_detail_no P3;
     OrderCompleted.product_name := ProductDetails.name P6;
     OrderCompleted.size := Sizes.name P4;
     OrderCompleted.color := Colors.name P5;
     OrderCompleted.quantity := OrderProduct.quantity P2;
     OrderCompleted.user_name := Users.name P11;
     OrderCompleted.phone_number := UserShippingDetails.phone_number P7;
     OrderCompleted.order_status := OrderStatus.name P9;
     OrderCompleted.total_price := OrdersDetails.total_price P3 |}.

(** [ORDER BY P3.start_time ASC] with a sort filter, [DESC] without. *)
Definition completed_order (filter_info : FilterInfo.t)
    (a b : completed_row) : bool :=
  if FilterInfo.sort filter_info
  then completed_time a <=? completed_time b
  else completed_time a >=? completed_time b.

(** [get_ordercompleted_list] *)
Definition get_ordercompleted_list (filter_info : FilterInfo.t) (d : db)
  : result (list OrderCompleted.t) :=
  limit_offset (FilterInfo.limit filter_info) (FilterInfo.offset filter_info)
    (map completed_of
         (sort_by (completed_order filter_info) (completed_rows filter_info d))).

(** [get_total_num]: the COUNT of the same rows. *)
Definition get_total_num (filter_info : FilterInfo.t) (d : db) : Z :=
  rowcount (completed_rows filter_info d).

End completed_orders.

(** No filter, newest first, the first [limit] rows. *)
Definition no_filter (limit : Z) : FilterInfo.t :=
  {| FilterInfo.from_date := None; FilterInfo.to_date := None;
     FilterInfo.order_detail_id := None; FilterInfo.product_name := None;
     FilterInfo.phone_number := None; FilterInfo.orderer := None;
     FilterInfo.order_id := None; FilterInfo.sort := false;
     FilterInfo.limit := limit; FilterInfo.offset := 0 |}.

(** The times of a page run in the direction of the sort. *)
Definition in_order (ascending : bool) (a b : datetime) : Prop :=
  if ascending then a <= b else b <= a.

(** ** Product detail endpoint *)

Module ProductDetailsView.

(** What a call inside the view's [try] may raise: a [KeyError], which has
    a handler of its own, or any other exception. *)
Inductive exn : Type :=
| KeyError (key : string)
| Exception (msg : string).

Inductive outcome (A : Type) : Type :=
| Returns (a : A)
| Raises (e : exn).

Arguments Returns {A} a.
Arguments Raises {A} e.

(** The document handed to [jsonify]. *)
Inductive body (details options : Type) : Type :=
| Details (data : details)
| Options (data : options)
| Message (message : string).

Arguments Details {details options} data.
Arguments Options {details options} data.
Arguments Message {details options} message.

(** [request.args[key]]: the first value under the key, a [KeyError]
    without one. *)
Fixpoint getitem (args : list (string * string)) (key : string) : outcome string :=
  match args with
  | [] => Raises (KeyError key)
  | (k, v) :: rest => if String.eqb k key then Returns v else getitem rest key
  end.

Section endpoint.
Variables connection details options : Type.

(** [connection.get_connection], [ProductService.get_product_details] and
    [ProductService.get_etc_options] are collaborators outside these
    sources. *)
Variable get_connection : outcome (option connection).
Variable get_product_details : Z -> connection -> outcome details.
Variable get_etc_options : Z * string -> connection -> outcome options.

(** The two [except] clauses of the view. *)
Definition handle (e : exn) : body details options * Z :=
  match e with
  | KeyError _ => (Message "KEY_ERROR", 400)
  | Exception msg => (Message msg, 400)
  end.

(** [product_details], the view behind GET /product/<product_id>, with the
    query parameters of the request. *)
Definition product_details (product_id : Z) (args : list (string * string))
  : body details options * Z :=
  match get_connection with
  | Raises e => handle e
  | Returns None => (Message "NO_DATABASE_CONNECTION", 500)
  | Returns (Some db_connection) =>
      match get_product_details product_id db_connection with
      | Raises e => handle e
      | Returns details_ =>
          match args with
          | _ :: _ =>
              match getitem args "color_id" with
              | Raises e => handle e
              | Returns color_id =>
                  match get_etc_options (product_id, color_id) db_connection with
                  | Raises e => handle e
                  | Returns etc_options => (Options etc_options, 200)
                  end
              end
          | [] => (Details details_, 200)
          end
      end
  end.
End endpoint.

Arguments handle {details options} e.
Arguments product_details {connection details options}
  get_connection get_product_details get_etc_options product_id args.

End ProductDetailsView.

(** * Properties *)

(** ** List and join facts *)

Lemma filter_nil_iff {A} (p : A -> bool) (l : list A) :
  filter p l = [] <-> forall x, In x l -> p x = false.
Proof.
  induction l as [|a l IH]; simpl.
  - split; [intros _ x [] | reflexivity].
  - destruct (p a) eqn:Ha; split.
    + discriminate.
    + intros H. specialize (H a (or_introl eq_refl)). congruence.
    + intros H x [<- | Hx]; [assumption | now apply IH].
    + intros H. apply IH. intros x Hx. apply H. now right.
Qed.

Lemma filter_singleton_unique {A} (p : A -> bool) (l : list A) (a x : A) :
  filter p l = [a] -> In x l -> p x = true -> x = a.
Proof.
  intros Hf Hx Hp.
  assert (Hin : In x (filter p l)) by (apply filter_In; now split).
  rewrite Hf in Hin. destruct Hin as [<- | []]. reflexivity.
Qed.

Lemma in_inner_join {A B} (rows : list A) (tbl : list B) on a b :
  In (a, b) (inner_join rows tbl on) <-> In a rows /\ In b tbl /\ on a b = true.
Proof.
  unfold inner_join. rewrite in_flat_map. split.
  - intros (a' & Ha' & Hin). apply in_map_iff in Hin.
    destruct Hin as (b' & Heq & Hb'). inversion Heq; subst.
    apply filter_In in Hb'. tauto.
  - intros (Ha & Hb & Hon). exists a. split; [assumption|].
    apply in_map. apply filter_In. now split.
Qed.

Lemma in_left_join {A B} (rows : list A) (tbl : list B) on a ob :
  In (a, ob) (left_join rows tbl on) <->
  In a rows /\
  match ob with
  | Some b => In b tbl /\ on a b = true
  | None => filter (on a) tbl = []
  end.
Proof.
  unfold left_join. rewrite in_flat_map. split.
  - intros (a' & Ha' & Hin).
    destruct (filter (on a') tbl) as [|b0 bs] eqn:Hf.
    + destruct Hin as [Heq | []]. inversion Heq; subst. now split.
    + apply in_map_iff in Hin. destruct Hin as (b' & Heq & Hb').
      inversion Heq; subst. split; [assumption|].
      rewrite <- Hf in Hb'. apply filter_In in Hb'. exact Hb'.
  - intros (Ha & Hob). exists a. split; [assumption|].
    destruct ob as [b|].
    + destruct Hob as (Hb & Hon).
      assert (Hin : In b (filter (on a) tbl)) by (apply filter_In; now split).
      destruct (filter (on a) tbl) as [|b0 bs]; [destruct Hin|].
      now apply (in_map (fun b => (a, Some b))).
    + rewrite Hob. now left.
Qed.

Lemma filter_andb {A} (p q : A -> bool) (l : list A) :
  filter (fun a => p a && q a) l = filter q (filter p l).
Proof.
  induction l as [|a l IH]; [reflexivity|]. cbn.
  destruct (p a); cbn; [destruct (q a)|]; now rewrite IH.
Qed.

(** ** Affected-row counts *)

Lemma rowcount_nonneg {A} (rows : list A) : (rowcount rows <? 0) = false.
Proof. unfold rowcount. apply Z.ltb_ge. apply Nat2Z.is_nonneg. Qed.

Lemma update_quantities_eq info d :
  update_quantities info d =
  (Ok 1, set_quantities d (map (close_fact info) (quantities d))
           (next_quantity_no d)).
Proof.
  unfold update_quantities, update_quantities_affected.
  now rewrite rowcount_nonneg.
Qed.

Lemma update_current_quantity_eq order_info d :
  update_current_quantity order_info d =
  (Ok 1, set_product_options d
           (map (decrement (OrderInfo.product_option_no order_info)
                           (OrderInfo.quantity order_info))
                (product_options d))).
Proof.
  unfold update_current_quantity, update_current_quantity_affected.
  now rewrite rowcount_nonneg.
Qed.

Lemma get_origin_quantity_no_eq order_info d :
  get_origin_quantity_no order_info d =
  (Ok (fetchone (map Quantities.quantity_no
                     (open_facts (OrderInfo.product_option_no order_info) d))), d).
Proof.
  unfold get_origin_quantity_no. now rewrite rowcount_nonneg.
Qed.

(** C9: in [update_quantities], [update_current_quantity] and
    [get_origin_quantity_no] the count tested by [affected_row < 0] is never
    negative, so the "Query Failed" branch is never taken: each method
    returns its success value on every input, also when the statement
    touches no row, as on the empty store. *)
Theorem query_failed_unreachable :
  (forall info d,
      (update_quantities_affected info d <? 0) = false
      /\ fst (update_quantities info d) = Ok 1)
  /\ (forall order_info d,
      (update_current_quantity_affected order_info d <? 0) = false
      /\ fst (update_current_quantity order_info d) = Ok 1)
  /\ (forall order_info d,
      (rowcount (map Quantities.quantity_no
                     (open_facts (OrderInfo.product_option_no order_info) d))
         <? 0) = false
      /\ get_origin_quantity_no order_info d =
         (Ok (fetchone (map Quantities.quantity_no
                            (open_facts (OrderInfo.product_option_no order_info) d))),
          d))
  /\ (forall info,
      update_quantities_affected info empty_db = 0
      /\ update_quantities info empty_db = (Ok 1, empty_db))
  /\ (forall order_info,
      update_current_quantity_affected order_info empty_db = 0
      /\ update_current_quantity order_info empty_db = (Ok 1, empty_db))
  /\ (forall order_info,
      get_origin_quantity_no order_info empty_db = (Ok None, empty_db)).
Proof.
  repeat split.
  - apply rowcount_nonneg.
  - now rewrite update_quantities_eq.
  - apply rowcount_nonneg.
  - now rewrite update_current_quantity_eq.
  - apply rowcount_nonneg.
  - apply get_origin_quantity_no_eq.
Qed.

(** C6: closing the open-ended quantity fact of an option that has none.
    On a store whose only fact for option 1 is already closed,
    [get_origin_quantity_no] returns [None] without raising, and
    [update_quantities] for a key that matches no row changes nothing and
    still returns 1. *)
Theorem close_without_open_fact_reports_success :
  let info := {| UpdateQuantityInfo.start_time := 1000;
                 UpdateQuantityInfo.origin_quantity_no := 2 |} in
  open_facts 1 closed_only_db = []
  /\ get_origin_quantity_no (sample_order 1) closed_only_db
     = (Ok None, closed_only_db)
  /\ update_quantities_affected info closed_only_db = 0
  /\ update_quantities info closed_only_db = (Ok 1, closed_only_db).
Proof. repeat split. Qed.

(** ** Stock counter *)

Lemma decrement_key no q PO :
  ProductOptions.product_option_no (decrement no q PO)
  = ProductOptions.product_option_no PO.
Proof. unfold decrement. now destruct (_ =? _). Qed.

Lemma decrement_is_deleted no q PO :
  ProductOptions.is_deleted (decrement no q PO) = ProductOptions.is_deleted PO.
Proof. unfold decrement. now destruct (_ =? _). Qed.

Lemma decrement_other no q PO :
  ProductOptions.product_option_no PO <> no -> decrement no q PO = PO.
Proof.
  intros H. unfold decrement.
  destruct (Z.eqb_spec (ProductOptions.product_option_no PO) no); congruence.
Qed.

Lemma decrement_counter no q PO :
  ProductOptions.product_option_no PO = no ->
  ProductOptions.current_quantity (decrement no q PO)
  = ProductOptions.current_quantity PO - q.
Proof. intros H. unfold decrement. rewrite H, Z.eqb_refl. reflexivity. Qed.

Lemma counter_rows_after_decrement no q l :
  map ProductOptions.current_quantity
      (filter (fun PO => (ProductOptions.product_option_no PO =? no)
                         && negb (ProductOptions.is_deleted PO))
              (map (decrement no q) l))
  = map (fun c => c - q)
        (map ProductOptions.current_quantity
             (filter (fun PO => (ProductOptions.product_option_no PO =? no)
                                && negb (ProductOptions.is_deleted PO)) l)).
Proof.
  induction l as [|PO l IH]; simpl; [reflexivity|].
  rewrite decrement_key, decrement_is_deleted.
  destruct (Z.eqb_spec (ProductOptions.product_option_no PO) no) as [E|E]; simpl.
  - destruct (ProductOptions.is_deleted PO); simpl; [assumption|].
    rewrite decrement_counter by assumption. now rewrite IH.
  - assumption.
Qed.

Lemma counter_rows_other no no' q l :
  no' <> no ->
  filter (fun PO => (ProductOptions.product_option_no PO =? no')
                    && negb (ProductOptions.is_deleted PO))
         (map (decrement no q) l)
  = filter (fun PO => (ProductOptions.product_option_no PO =? no')
                      && negb (ProductOptions.is_deleted PO)) l.
Proof.
  intros Hne. induction l as [|PO l IH]; simpl; [reflexivity|].
  rewrite decrement_key, decrement_is_deleted.
  destruct (Z.eqb_spec (ProductOptions.product_option_no PO) no') as [E|E]; simpl.
  - rewrite decrement_other by congruence. now rewrite IH.
  - assumption.
Qed.

(** ** Facts valid at the time of an order *)

(** C5: on a product whose price fact was closed at time 20, where the next
    fact starts, exactly one fact holds time 20 in its half-open interval,
    but the join of [get_detail] (the ON clause shared with
    [get_ordercompleted_list]) matches both facts for an order placed at
    time 20: the result set has two rows with different prices, and
    [fetchone] shows the one of the closed fact. *)
Theorem order_at_boundary_matches_two_facts :
  map ProductDetails.price (facts_at 1 20 boundary_db) = [12000]
  /\ map OrderDetail.original_price (get_detail_rows 1 boundary_db)
     = [10000; 12000]
  /\ get_detail 1 boundary_db
     = (Ok (fetchone (get_detail_rows 1 boundary_db)), boundary_db)
  /\ option_map OrderDetail.original_price
       (fetchone (get_detail_rows 1 boundary_db)) = Some 10000.
Proof. repeat split. Qed.

(** ** Product lookup *)

Lemma active_detail_by_id P product_id l :
  Products.product_no P = product_id ->
  filter (active_detail P) l
  = filter (active_detail {| Products.product_no := product_id;
                             Products.is_deleted := false |}) l.
Proof. intros <-. apply filter_ext. intros PD. reflexivity. Qed.

Lemma filter_joined_rows {A B} (keep : A -> bool) (a : A) (l : list B) :
  filter (fun '(a0, _) => keep a0) (map (fun b => (a, Some b)) l)
  = if keep a then map (fun b => (a, Some b)) l else [].
Proof.
  induction l as [|b l IH]; simpl.
  - now destruct (keep a).
  - rewrite IH. now destruct (keep a).
Qed.

Lemma select_product_info_first product_id (details : list ProductDetails.row)
    (t : datetime) (ps : list Products.row) :
  let keep := fun P => negb (Products.is_deleted P)
                       && (Products.product_no P =? product_id) in
  let active := filter (active_detail {| Products.product_no := product_id;
                                         Products.is_deleted := false |})
                       details in
  fetchone
    (map (fun '(P, PD) =>
            {| ProductInfo.original_price := option_map ProductDetails.price PD;
               ProductInfo.discount_rate := discount_of_nullable PD t |})
         (filter (fun '(P, PD) => keep P)
                 (left_join ps details active_detail)))
  = if existsb keep ps then
      Some {| ProductInfo.original_price :=
                option_map ProductDetails.price (fetchone active);
              ProductInfo.discount_rate :=
                discount_of_nullable (fetchone active) t |}
    else None.
Proof.
  intros keep active. induction ps as [|P ps IH]; [reflexivity|].
  unfold left_join. cbn [flat_map existsb]. fold (left_join ps details active_detail).
  rewrite filter_app, map_app.
  destruct (keep P) eqn:HP; cbn [orb].
  - assert (Hid : Products.product_no P = product_id).
    { unfold keep in HP. apply andb_prop in HP. now apply Z.eqb_eq. }
    rewrite (active_detail_by_id P product_id details Hid). fold active.
    destruct active as [|PD bs].
    + simpl. rewrite HP. reflexivity.
    + rewrite (filter_joined_rows keep P (PD :: bs)), HP. reflexivity.
  - destruct (filter (active_detail P) details) as [|PD bs].
    + simpl. rewrite HP. exact IH.
    + rewrite (filter_joined_rows keep P (PD :: bs)), HP. exact IH.
Qed.

Lemma select_product_info_eq order_info d :
  select_product_info order_info d =
  if listed (OrderInfo.product_id order_info) d then
    (Ok (product_info_of
           (fetchone (active_details (OrderInfo.product_id order_info) d)) d), d)
  else (Raise "THIS_PRODUCT_DOES_NOT_EXISTS", d).
Proof.
  unfold select_product_info, select_product_info_rows, listed, active_details,
    product_info_of.
  rewrite select_product_info_first.
  now destruct (existsb _ (products d)).
Qed.

Lemma get_seller_product_info_rows_sound product_info d row :
  In row (get_seller_product_info_rows product_info d) ->
  exists PD,
    match PD with
    | Some PD => In PD (active_details (OrderInfo.product_id product_info) d)
    | None => active_details (OrderInfo.product_id product_info) d = []
    end
    /\ SellerProductInfo.original_price row = option_map ProductDetails.price PD
    /\ SellerProductInfo.discount_rate row = discount_of_nullable PD (now d).
Proof.
  unfold get_seller_product_info_rows. cbv zeta. intros Hin.
  apply in_map_iff in Hin. destruct Hin as (tuple & Hrow & Hin).
  apply filter_In in Hin. destruct Hin as (Hin & Hwhere).
  destruct tuple as [[[[[[P PD] PI] IM] PO] C] SZ].
  apply in_left_join in Hin. destruct Hin as (Hin & _).
  apply in_left_join in Hin. destruct Hin as (Hin & _).
  apply in_left_join in Hin. destruct Hin as (Hin & _).
  apply in_left_join in Hin. destruct Hin as (Hin & _).
  apply in_left_join in Hin. destruct Hin as (Hin & _).
  apply in_left_join in Hin. destruct Hin as (_ & HPD).
  assert (Hid : Products.product_no P = OrderInfo.product_id product_info).
  { apply andb_prop in Hwhere. destruct Hwhere as (Hwhere & _).
    apply andb_prop in Hwhere. destruct Hwhere as (Hwhere & _).
    apply andb_prop in Hwhere. now apply Z.eqb_eq. }
  exists PD. subst row. simpl. repeat split.
  unfold active_details.
  rewrite <- (active_detail_by_id P _ (product_details d) Hid).
  destruct PD as [PD|]; [|assumption].
  apply filter_In. exact HPD.
Qed.

(** C7, as the code has it: [select_product_info] raises
    THIS_PRODUCT_DOES_NOT_EXISTS exactly when no product row that is not
    deleted carries the id.  For a listed product it returns a row: the
    price and the resolved discount of the first open-ended, activated and
    displayed detail row, or a NULL price with discount 0 when the product
    has no such detail row.  Every row of [get_seller_product_info] is
    built the same way: its price is that of such a detail row, or NULL
    with discount 0 when the product has none. *)
Theorem product_lookup_spec :
  (forall order_info d,
      select_product_info order_info d =
      if listed (OrderInfo.product_id order_info) d then
        (Ok (product_info_of
               (fetchone (active_details (OrderInfo.product_id order_info) d)) d),
         d)
      else (Raise "THIS_PRODUCT_DOES_NOT_EXISTS", d))
  /\ (forall d, product_info_of None d
                = {| ProductInfo.original_price := None;
                     ProductInfo.discount_rate := 0 |})
  /\ (forall product_info d,
      Forall (fun row =>
                exists PD,
                  match PD with
                  | Some PD =>
                      In PD (active_details (OrderInfo.product_id product_info) d)
                  | None =>
                      active_details (OrderInfo.product_id product_info) d = []
                  end
                  /\ SellerProductInfo.original_price row
                     = option_map ProductDetails.price PD
                  /\ SellerProductInfo.discount_rate row
                     = discount_of_nullable PD (now d))
             (get_seller_product_info_rows product_info d))
  /\ (forall t, discount_of_nullable None t = 0).
Proof.
  split; [exact select_product_info_eq|].
  split; [reflexivity|].
  split; [|reflexivity].
  intros product_info d. apply Forall_forall. intros row Hin.
  now apply get_seller_product_info_rows_sound.
Qed.

(** C7 as stated does not hold: product 1 is listed and has no detail row,
    hence no fact active at any time, and both lookups return a row with a
    NULL price and discount 0 instead of raising. *)
Lemma lookup_without_active_fact_returns_null_price :
  active_details 1 unpriced_db = []
  /\ product_details unpriced_db = []
  /\ select_product_info (sample_order 1) unpriced_db
     = (Ok {| ProductInfo.original_price := None;
              ProductInfo.discount_rate := 0 |}, unpriced_db)
  /\ get_seller_product_info (sample_order 1) unpriced_db
     = (Ok {| SellerProductInfo.product_id := 1;
              SellerProductInfo.color_name := Some "black";
              SellerProductInfo.color_id := Some 1;
              SellerProductInfo.size_name := Some "M";
              SellerProductInfo.size_id := Some 1;
              SellerProductInfo.name := None;
              SellerProductInfo.original_price := None;
              SellerProductInfo.image_small := None;
              SellerProductInfo.discount_rate := 0 |}, unpriced_db).
Proof. repeat split. Qed.

(** ** Discount resolution *)

Lemma get_detail_rows_sound order_detail_id d row :
  In row (get_detail_rows order_detail_id d) ->
  exists P1 P11 P5 P7,
    In P1 (orders_details d) /\ In P11 (order_product d)
    /\ In P5 (product_options d) /\ In P7 (product_details d)
    /\ OrdersDetails.order_detail_no P1 = order_detail_id
    /\ OrderProduct.order_detail_id P11 = OrdersDetails.order_detail_no P1
    /\ OrderProduct.product_option_id P11 = ProductOptions.product_option_no P5
    /\ ProductOptions.product_id P5 = ProductDetails.product_id P7
    /\ valid_at_order P1 P7 = true
    /\ OrderDetail.order_time row = OrdersDetails.start_time P1
    /\ OrderDetail.original_price row = ProductDetails.price P7
    /\ OrderDetail.discount_rate row = discount_of P7 (OrdersDetails.start_time P1).
Proof.
  unfold get_detail_rows. cbv zeta. intros Hin.
  apply in_map_iff in Hin. destruct Hin as (tuple & Hrow & Hin).
  apply filter_In in Hin. destruct Hin as (Hin & Hwhere).
  destruct tuple as [[[[[[[[[[P1 P2] P3] P4] P11] P5] P6] P7] P8] P9] P10].
  apply in_inner_join in Hin. destruct Hin as (Hin & _ & _).
  apply in_inner_join in Hin. destruct Hin as (Hin & _ & _).
  apply in_inner_join in Hin. destruct Hin as (Hin & _ & _).
  apply in_inner_join in Hin. destruct Hin as (Hin & H7 & Hon7).
  apply in_inner_join in Hin. destruct Hin as (Hin & _ & _).
  apply in_inner_join in Hin. destruct Hin as (Hin & H5 & Hon5).
  apply in_inner_join in Hin. destruct Hin as (Hin & H11 & Hon11).
  apply in_inner_join in Hin. destruct Hin as (Hin & _ & _).
  apply in_inner_join in Hin. destruct Hin as (Hin & _ & _).
  apply in_inner_join in Hin. destruct Hin as (H1 & _ & _).
  apply andb_prop in Hon7. destruct Hon7 as (Hpid & Hvalid).
  apply Z.eqb_eq in Hwhere, Hpid, Hon5, Hon11.
  exists P1, P11, P5, P7. subst row. simpl.
  repeat split; try assumption. now symmetry.
Qed.

Lemma discount_rate_case_rule PD t :
  three_way_rule PD t (discount_of PD t).
Proof.
  unfold three_way_rule, discount_of, discount_rate_case, between.
  destruct (ProductDetails.discount_rate PD) as [rate|]; [|reflexivity].
  destruct (ProductDetails.discount_start_date PD) as [discount_start|];
    [|reflexivity].
  destruct (ProductDetails.discount_end_date PD) as [discount_end|];
    [|reflexivity].
  split.
  - intros (Hs & He).
    now rewrite (proj2 (Z.leb_le _ _) Hs), (proj2 (Z.leb_le _ _) He).
  - intros [Hs | He].
    + now rewrite (proj2 (Z.leb_gt _ _) Hs).
    + rewrite (proj2 (Z.leb_gt _ _) He). now rewrite andb_false_r.
Qed.

(** C2: the discount column follows the three-way rule: no rate gives 0; a
    rate without a window always applies; a rate with a window applies
    exactly when the reference time lies between start and end, both
    included, and gives 0 otherwise.  Every row [get_detail] shows for a
    past order carries the discount that rule gives, on the columns of a
    detail row of the ordered product, at the start time of that order, and
    the answer does not move with the current time: an order placed inside
    the window keeps its rate and one placed after it shows 0, whatever the
    clock says.  [select_product_info] applies the same rule to the
    product's open-ended detail row at the current time. *)
Theorem discount_resolution :
  (forall discount_start_date discount_end_date t,
      discount_rate_case None discount_start_date discount_end_date t = 0)
  /\ (forall rate discount_end_date t,
      discount_rate_case (Some rate) None discount_end_date t = rate)
  /\ (forall rate discount_start discount_end t,
      discount_rate_case (Some rate) (Some discount_start) (Some discount_end) t
      = if (discount_start <=? t) && (t <=? discount_end) then rate else 0)
  /\ (forall order_detail_id d,
      Forall (fun row =>
                exists P1 P11 P5 P7,
                  In P1 (orders_details d) /\ In P11 (order_product d)
                  /\ In P5 (product_options d) /\ In P7 (product_details d)
                  /\ OrdersDetails.order_detail_no P1 = order_detail_id
                  /\ OrderProduct.order_detail_id P11 = order_detail_id
                  /\ OrderProduct.product_option_id P11
                     = ProductOptions.product_option_no P5
                  /\ ProductOptions.product_id P5 = ProductDetails.product_id P7
                  /\ valid_at_order P1 P7 = true
                  /\ OrderDetail.order_time row = OrdersDetails.start_time P1
                  /\ OrderDetail.original_price row = ProductDetails.price P7
                  /\ three_way_rule P7 (OrdersDetails.start_time P1)
                       (OrderDetail.discount_rate row))
             (get_detail_rows order_detail_id d))
  /\ (forall order_detail_id d t,
      fst (get_detail order_detail_id (set_now d t))
      = fst (get_detail order_detail_id d))
  /\ (forall t,
      map OrderDetail.discount_rate (get_detail_rows 1 (set_now boundary_db t))
      = [20; 20])
  /\ (forall t,
      map OrderDetail.discount_rate (get_detail_rows 1 (set_now late_order_db t))
      = [0])
  /\ (forall order_info d,
      match fst (select_product_info order_info d) with
      | Ok product_info =>
          match fetchone (active_details (OrderInfo.product_id order_info) d) with
          | Some PD =>
              ProductInfo.original_price product_info
              = Some (ProductDetails.price PD)
              /\ three_way_rule PD (now d)
                   (ProductInfo.discount_rate product_info)
          | None => ProductInfo.discount_rate product_info = 0
          end
      | Raise _ => listed (OrderInfo.product_id order_info) d = false
      end).
Proof.
  split; [reflexivity|]. split; [reflexivity|]. split; [reflexivity|].
  split; [|split; [reflexivity|split; [reflexivity|split; [reflexivity|]]]].
  - intros order_detail_id d. apply Forall_forall. intros row Hin.
    destruct (get_detail_rows_sound _ _ _ Hin)
      as (P1 & P11 & P5 & P7 & H1 & H11 & H5 & H7 & Hno & Hline & Hopt
          & Hprod & Hvalid & Ht & Hprice & Hd).
    exists P1, P11, P5, P7. rewrite Hd.
    repeat split; try assumption; try congruence;
      apply (discount_rate_case_rule P7 (OrdersDetails.start_time P1)).
  - intros order_info d. rewrite select_product_info_eq.
    destruct (listed (OrderInfo.product_id order_info) d); cbn [fst];
      [|reflexivity].
    destruct (fetchone (active_details (OrderInfo.product_id order_info) d))
      as [PD|]; cbn; [|reflexivity].
    split; [reflexivity | apply discount_rate_case_rule].
Qed.

(** ** Shipping address upsert *)

Lemma rows_of_user_app user_no l1 l2 :
  rows_of_user user_no (l1 ++ l2)
  = rows_of_user user_no l1 ++ rows_of_user user_no l2.
Proof. apply filter_app. Qed.

Lemma overwrite_address_user order_info USD :
  UserShippingDetails.user_id (overwrite_address order_info USD)
  = UserShippingDetails.user_id USD.
Proof.
  unfold overwrite_address.
  destruct (Z.eqb_spec (UserShippingDetails.user_id USD)
                       (OrderInfo.user_no order_info)) as [E|E]; simpl; congruence.
Qed.

Lemma rows_of_user_overwrite order_info user_no l :
  rows_of_user user_no (map (overwrite_address order_info) l)
  = map (overwrite_address order_info) (rows_of_user user_no l).
Proof.
  unfold rows_of_user. induction l as [|USD l IH]; simpl; [reflexivity|].
  rewrite overwrite_address_user.
  destruct (UserShippingDetails.user_id USD =? user_no); simpl; now rewrite IH.
Qed.

Lemma overwrite_other_user order_info user_no l :
  user_no <> OrderInfo.user_no order_info ->
  map (overwrite_address order_info) (rows_of_user user_no l)
  = rows_of_user user_no l.
Proof.
  intros Hne. unfold rows_of_user.
  induction l as [|USD l IH]; simpl; [reflexivity|].
  destruct (Z.eqb_spec (UserShippingDetails.user_id USD) user_no) as [E|E];
    simpl; [|assumption].
  rewrite IH. f_equal. unfold overwrite_address.
  destruct (Z.eqb_spec (UserShippingDetails.user_id USD)
                       (OrderInfo.user_no order_info)); congruence.
Qed.

Lemma rows_of_user_user user_no l USD :
  In USD (rows_of_user user_no l) -> UserShippingDetails.user_id USD = user_no.
Proof.
  unfold rows_of_user. intros H. apply filter_In in H.
  now apply Z.eqb_eq.
Qed.

Lemma upsert_step order_info d :
  one_address_per_user (user_shipping_details d) ->
  exists d',
    upsert_user_shipping_details order_info d = (Ok 1, d')
    /\ one_address_per_user (user_shipping_details d')
    /\ (exists no,
          rows_of_user (OrderInfo.user_no order_info) (user_shipping_details d')
          = [submitted_address no order_info])
    /\ (forall user_no,
          user_no <> OrderInfo.user_no order_info ->
          rows_of_user user_no (user_shipping_details d')
          = rows_of_user user_no (user_shipping_details d))
    /\ match rows_of_user (OrderInfo.user_no order_info)
               (user_shipping_details d) with
       | [] =>
           user_shipping_details d'
           = user_shipping_details d
             ++ [submitted_address (next_user_shipping_detail_no d) order_info]
       | USD :: _ =>
           user_shipping_details d'
           = map (overwrite_address order_info) (user_shipping_details d)
           /\ List.length (user_shipping_details d')
              = List.length (user_shipping_details d)
           /\ rows_of_user (OrderInfo.user_no order_info)
                (user_shipping_details d')
              = [submitted_address
                   (UserShippingDetails.user_shipping_detail_no USD) order_info]
       end.
Proof.
  intros Hone.
  set (u := OrderInfo.user_no order_info).
  assert (Hothers_upd : forall user_no, user_no <> u ->
            rows_of_user user_no
              (map (overwrite_address order_info) (user_shipping_details d))
            = rows_of_user user_no (user_shipping_details d)).
  { intros user_no Hne. rewrite rows_of_user_overwrite.
    now apply overwrite_other_user. }
  assert (Hothers_ins : forall user_no no, user_no <> u ->
            rows_of_user user_no
              (user_shipping_details d ++ [submitted_address no order_info])
            = rows_of_user user_no (user_shipping_details d)).
  { intros user_no no Hne. rewrite rows_of_user_app.
    unfold rows_of_user at 2. simpl. fold u.
    destruct (Z.eqb_spec u user_no); [congruence|]. apply app_nil_r. }
  unfold upsert_user_shipping_details, bind, select_user_shipping_details_info.
  fold u.
  destruct (rows_of_user u (user_shipping_details d)) as [|USD rest] eqn:Hrows.
  - (* no address on file: INSERT *)
    simpl. eexists. split; [reflexivity|]. simpl.
    assert (Hmine : rows_of_user u
              (user_shipping_details d
               ++ [submitted_address (next_user_shipping_detail_no d) order_info])
            = [submitted_address (next_user_shipping_detail_no d) order_info]).
    { rewrite rows_of_user_app, Hrows. unfold rows_of_user. simpl. fold u.
      now rewrite Z.eqb_refl. }
    repeat split.
    + intros user_no. destruct (Z.eq_dec user_no u) as [->|Hne].
      * rewrite Hmine. simpl. lia.
      * rewrite Hothers_ins by assumption. apply Hone.
    + eexists. exact Hmine.
    + intros user_no Hne. now apply Hothers_ins.
  - (* an address on file: UPDATE *)
    assert (Hrest : rest = []).
    { specialize (Hone u). rewrite Hrows in Hone. simpl in Hone.
      destruct rest; [reflexivity | simpl in Hone; lia]. }
    subst rest.
    assert (HUSD : UserShippingDetails.user_id USD = u).
    { apply (rows_of_user_user u (user_shipping_details d)).
      rewrite Hrows. now left. }
    assert (Hmine : rows_of_user u
              (map (overwrite_address order_info) (user_shipping_details d))
            = [submitted_address
                 (UserShippingDetails.user_shipping_detail_no USD) order_info]).
    { rewrite rows_of_user_overwrite, Hrows. simpl. unfold overwrite_address.
      fold u. rewrite HUSD, Z.eqb_refl. reflexivity. }
    simpl. eexists. split; [reflexivity|]. simpl.
    repeat split.
    + intros user_no. destruct (Z.eq_dec user_no u) as [->|Hne].
      * rewrite Hmine. simpl. lia.
      * rewrite Hothers_upd by assumption. apply Hone.
    + eexists. exact Hmine.
    + intros user_no Hne. now apply Hothers_upd.
    + apply length_map.
    + exact Hmine.
Qed.

Lemma upsert_all_keeps_one_address orders d :
  one_address_per_user (user_shipping_details d) ->
  one_address_per_user (user_shipping_details (upsert_all orders d)).
Proof.
  revert d. induction orders as [|order_info orders IH]; intros d Hone;
    [exact Hone|].
  unfold upsert_all. simpl. apply IH.
  destruct (upsert_step order_info d Hone) as (d' & Hrun & Hone' & _).
  now rewrite Hrun.
Qed.

Lemma overwrite_address_key order_info USD :
  UserShippingDetails.user_shipping_detail_no (overwrite_address order_info USD)
  = UserShippingDetails.user_shipping_detail_no USD.
Proof. unfold overwrite_address. now destruct (_ =? _). Qed.

Lemma submitted_address_fields no order_info :
  UserShippingDetails.user_shipping_detail_no (submitted_address no order_info) = no
  /\ carries_submitted_fields order_info (submitted_address no order_info).
Proof. repeat split. Qed.

(** C8: on a store with at most one address row per user, the upsert of an
    order returns 1 and leaves at most one row per user.  The user of the
    order then has exactly one row, and it holds the submitted receiver,
    address, additional address, zip code and phone number.  When the user
    had no row, that row is appended under the next key; otherwise the row
    on file is overwritten where it stands: it keeps its key, and the table
    keeps its length and its keys.  The rows of every other user are as
    before.  Hence no run of orders leaves a user with two rows, from such
    a store or from the empty one. *)
Theorem upsert_keeps_one_address order_info d :
  one_address_per_user (user_shipping_details d) ->
  (exists d',
      upsert_user_shipping_details order_info d = (Ok 1, d')
      /\ one_address_per_user (user_shipping_details d')
      /\ (exists USD,
            rows_of_user (OrderInfo.user_no order_info) (user_shipping_details d')
            = [USD]
            /\ carries_submitted_fields order_info USD)
      /\ (forall user_no,
            user_no <> OrderInfo.user_no order_info ->
            rows_of_user user_no (user_shipping_details d')
            = rows_of_user user_no (user_shipping_details d))
      /\ match rows_of_user (OrderInfo.user_no order_info)
                 (user_shipping_details d) with
         | [] =>
             exists USD,
               user_shipping_details d' = user_shipping_details d ++ [USD]
               /\ UserShippingDetails.user_shipping_detail_no USD
                  = next_user_shipping_detail_no d
               /\ carries_submitted_fields order_info USD
         | on_file :: _ =>
             List.length (user_shipping_details d')
             = List.length (user_shipping_details d)
             /\ map UserShippingDetails.user_shipping_detail_no
                  (user_shipping_details d')
                = map UserShippingDetails.user_shipping_detail_no
                    (user_shipping_details d)
             /\ exists USD,
                  rows_of_user (OrderInfo.user_no order_info)
                    (user_shipping_details d')
                  = [USD]
                  /\ UserShippingDetails.user_shipping_detail_no USD
                     = UserShippingDetails.user_shipping_detail_no on_file
                  /\ carries_submitted_fields order_info USD
         end)
  /\ (forall orders,
        one_address_per_user (user_shipping_details (upsert_all orders d)))
  /\ (forall orders,
        one_address_per_user (user_shipping_details (upsert_all orders empty_db))).
Proof.
  intros Hone. split; [|split].
  - destruct (upsert_step order_info d Hone)
      as (d' & Hrun & Hone' & (no & Hmine) & Hothers & Hcase).
    exists d'. split; [exact Hrun|]. split; [exact Hone'|].
    split; [|split; [exact Hothers|]].
    + exists (submitted_address no order_info). split; [exact Hmine|].
      apply submitted_address_fields.
    + destruct (rows_of_user (OrderInfo.user_no order_info)
                  (user_shipping_details d)) as [|on_file rest].
      * exists (submitted_address (next_user_shipping_detail_no d) order_info).
        split; [exact Hcase|]. apply submitted_address_fields.
      * destruct Hcase as (Htable & Hlen & Hrow).
        split; [exact Hlen|]. split.
        -- rewrite Htable, map_map. apply map_ext. intros USD.
           apply overwrite_address_key.
        -- exists (submitted_address
                     (UserShippingDetails.user_shipping_detail_no on_file)
                     order_info).
           split; [exact Hrow|]. apply submitted_address_fields.
  - intros orders. now apply upsert_all_keeps_one_address.
  - intros orders. apply upsert_all_keeps_one_address.
    intros user_no. simpl. lia.
Qed.

Lemma upsert_keeps_one_address_witness :
  (exists d',
      upsert_user_shipping_details (sample_order 1) empty_db = (Ok 1, d')
      /\ one_address_per_user (user_shipping_details d'))
  /\ (exists d',
      upsert_user_shipping_details (sample_order 1) addressed_db = (Ok 1, d')
      /\ one_address_per_user (user_shipping_details d')).
Proof.
  split.
  - destruct (upsert_keeps_one_address (sample_order 1) empty_db)
      as ((d' & H1 & H2 & _) & _).
    + intros user_no. simpl. lia.
    + exists d'. split; assumption.
  - destruct (upsert_keeps_one_address (sample_order 1) addressed_db)
      as ((d' & H1 & H2 & _) & _).
    + intros user_no. unfold rows_of_user, addressed_db. simpl.
      match goal with
      | |- context [if ?b then _ else _] => destruct b
      end; simpl; lia.
    + exists d'. split; assumption.
Defined.

(** ** Counter and ledger in lockstep *)

Lemma option_row_unique no (l : list ProductOptions.row) PO :
  NoDup (map ProductOptions.product_option_no l) ->
  In PO l -> ProductOptions.product_option_no PO = no ->
  filter (fun PO => ProductOptions.product_option_no PO =? no) l = [PO].
Proof.
  induction l as [|a l IH]; intros Hnd Hin Hno; [destruct Hin|].
  simpl in Hnd. inversion Hnd as [|? ? Hnotin Hnd']; subst.
  simpl. destruct Hin as [-> | Hin].
  - rewrite Z.eqb_refl. f_equal. apply filter_nil_iff. intros x Hx.
    apply Z.eqb_neq. intros E. apply Hnotin. rewrite <- E. now apply in_map.
  - destruct (Z.eqb_spec (ProductOptions.product_option_no a)
                         (ProductOptions.product_option_no PO)) as [E|E].
    + exfalso. apply Hnotin. rewrite E. now apply in_map.
    + now apply IH.
Qed.

Lemma decrement_filter no q l :
  filter (fun PO => ProductOptions.product_option_no PO =? no)
         (map (decrement no q) l)
  = map (decrement no q)
        (filter (fun PO => ProductOptions.product_option_no PO =? no) l).
Proof.
  induction l as [|PO l IH]; simpl; [reflexivity|].
  rewrite decrement_key.
  destruct (ProductOptions.product_option_no PO =? no); simpl; now rewrite IH.
Qed.

Lemma fresh_fact_start next (Q : Quantities.row) l :
  Forall (fun Q => Quantities.quantity_no Q < next) l ->
  Quantities.quantity_no Q = next ->
  filter (fun Q => Quantities.quantity_no Q =? next) (l ++ [Q]) = [Q].
Proof.
  intros Hfresh HQ. rewrite filter_app. simpl. rewrite HQ, Z.eqb_refl.
  replace (filter _ l) with (@nil Quantities.row); [reflexivity|].
  symmetry. apply filter_nil_iff. intros x Hx.
  rewrite Forall_forall in Hfresh. specialize (Hfresh x Hx).
  apply Z.eqb_neq. lia.
Qed.

Lemma close_fact_open info no Q :
  UpdateQuantityInfo.start_time info <> MAX_TIME ->
  (Quantities.product_option_id (close_fact info Q) =? no)
  && (Quantities.close_time (close_fact info Q) =? MAX_TIME) = true ->
  close_fact info Q = Q
  /\ Quantities.quantity_no Q <> UpdateQuantityInfo.origin_quantity_no info
  /\ (Quantities.product_option_id Q =? no)
     && (Quantities.close_time Q =? MAX_TIME) = true.
Proof.
  intros Hst. unfold close_fact.
  destruct (Z.eqb_spec (Quantities.quantity_no Q)
                       (UpdateQuantityInfo.origin_quantity_no info)) as [E|E];
    simpl; intros H.
  - apply andb_prop in H. destruct H as (_ & H). apply Z.eqb_eq in H. contradiction.
  - repeat split; assumption.
Qed.

Lemma option_rows_at_most_one no (l : list ProductOptions.row) :
  NoDup (map ProductOptions.product_option_no l) ->
  Nat.le (List.length
            (filter (fun PO => ProductOptions.product_option_no PO =? no) l)) 1.
Proof.
  induction l as [|a l IH]; intros Hnd; simpl; [repeat constructor|].
  inversion Hnd as [|? ? Hnotin Hnd']; subst.
  destruct (Z.eqb_spec (ProductOptions.product_option_no a) no) as [E|E].
  - replace (filter _ l) with (@nil ProductOptions.row); [constructor|].
    symmetry. apply filter_nil_iff. intros x Hx.
    apply Z.eqb_neq. intros E'. apply Hnotin. rewrite E, <- E'.
    now apply in_map.
  - now apply IH.
Qed.

Lemma insert_quantities_options order_info d r d' :
  insert_quantities order_info d = (r, d') ->
  product_options d' = product_options d.
Proof.
  unfold insert_quantities.
  destruct (map ProductOptions.current_quantity _) as [|a [|b l]];
    cbn; intros [= <- <-]; reflexivity.
Qed.

Lemma insert_quantities_runs order_info d :
  option_key d ->
  exists d', insert_quantities order_info d = (Ok (next_quantity_no d), d')
             /\ In (next_quantity_no d) (map Quantities.quantity_no (quantities d')).
Proof.
  intros Hkey. unfold insert_quantities.
  pose proof (option_rows_at_most_one
                (OrderInfo.product_option_no order_info) _ Hkey) as Hone.
  destruct (filter _ (product_options d)) as [|a [|b l]]; cbn in *.
  - eexists. split; [reflexivity|]. cbn. rewrite map_app. apply in_or_app.
    right. now left.
  - eexists. split; [reflexivity|]. cbn. rewrite map_app. apply in_or_app.
    right. now left.
  - exfalso. inversion Hone as [|? Hbad]. inversion Hbad.
Qed.

Lemma get_quantity_start_time_runs quantity_no d :
  In quantity_no (map Quantities.quantity_no (quantities d)) ->
  exists start_time, get_quantity_start_time quantity_no d = (Ok start_time, d).
Proof.
  intros Hin. unfold get_quantity_start_time.
  destruct (filter (fun Q => Quantities.quantity_no Q =? quantity_no)
              (quantities d)) as [|Q0 rest] eqn:Hrows; [|cbn; eauto].
  exfalso. apply in_map_iff in Hin. destruct Hin as (Q & HQ & Hin).
  pose proof (proj1 (filter_nil_iff
                       (fun Q => Quantities.quantity_no Q =? quantity_no)
                       (quantities d)) Hrows Q Hin) as Hno.
  cbn beta in Hno. apply Z.eqb_neq in Hno. contradiction.
Qed.

Lemma get_quantity_start_time_store quantity_no d r d' :
  get_quantity_start_time quantity_no d = (r, d') -> d' = d.
Proof.
  unfold get_quantity_start_time.
  destruct (fetchone _); intros [= _ <-]; reflexivity.
Qed.

(** The outcomes of a reservation: it raises and leaves the store as it
    was, or it returns 1 after a stock check that held, with the counter
    decremented. *)
Lemma check_and_reserve_cases order_info d :
  let no := OrderInfo.product_option_no order_info in
  let q := OrderInfo.quantity order_info in
  (exists msg, check_and_reserve order_info d = (Raise msg, d))
  \/ (exists c d',
        check_and_reserve order_info d = (Ok 1, d')
        /\ fetchone (get_current_quantity_rows no d) = Some c
        /\ q <= c
        /\ product_options d' = map (decrement no q) (product_options d)).
Proof.
  intros no q. unfold check_and_reserve, rollback, bind, get_current_quantity.
  fold no q.
  destruct (fetchone (get_current_quantity_rows no d)) as [c|] eqn:Hc;
    [|left; eauto].
  destruct (c >=? q) eqn:Hge; [|left; eauto].
  rewrite update_current_quantity_eq, get_origin_quantity_no_eq.
  destruct (fetchone (map Quantities.quantity_no _)) as [origin|];
    [|left; eauto].
  destruct (insert_quantities order_info _) as [[quantity_no|msg] d2] eqn:Hins;
    [|left; eauto].
  destruct (get_quantity_start_time quantity_no d2) as [[start_time|msg] d3] eqn:Hst;
    [|left; eauto].
  rewrite update_quantities_eq. right. exists c. eexists.
  split; [reflexivity|]. split; [reflexivity|].
  split; [now apply Z.geb_le|].
  apply get_quantity_start_time_store in Hst. subst d3.
  apply insert_quantities_options in Hins.
  cbn [product_options set_quantities]. rewrite Hins. reflexivity.
Qed.

Lemma check_and_reserve_runs order_info d c :
  let no := OrderInfo.product_option_no order_info in
  let q := OrderInfo.quantity order_info in
  option_key d ->
  fetchone (get_current_quantity_rows no d) = Some c ->
  q <= c ->
  open_facts no d <> [] ->
  exists d', check_and_reserve order_info d = (Ok 1, d').
Proof.
  intros no q Hkey Hc Hle Hopen.
  unfold check_and_reserve, rollback, bind, get_current_quantity.
  fold no q. rewrite Hc.
  replace (c >=? q) with true by (symmetry; now apply Z.geb_le).
  rewrite update_current_quantity_eq, get_origin_quantity_no_eq.
  fold no q.
  assert (Hsame : open_facts no
                    (set_product_options d
                       (map (decrement no q) (product_options d)))
                  = open_facts no d) by reflexivity.
  rewrite Hsame.
  destruct (open_facts no d) as [|origin rest]; [congruence|].
  cbn [map fetchone hd_error].
  assert (Hkey' : option_key
                    (set_product_options d
                       (map (decrement no q) (product_options d)))).
  { unfold option_key in *. cbn [product_options set_product_options].
    rewrite map_map.
    erewrite map_ext; [exact Hkey|]. intros PO. apply decrement_key. }
  destruct (insert_quantities_runs order_info _ Hkey') as (d2 & Hins & Hin).
  rewrite Hins.
  destruct (get_quantity_start_time_runs _ d2 Hin) as (start_time & Hst).
  rewrite Hst, update_quantities_eq. eauto.
Qed.

Lemma decrement_others_kept no q (l : list ProductOptions.row) PO :
  ProductOptions.product_option_no PO <> no ->
  In PO (map (decrement no q) l) <-> In PO l.
Proof.
  intros Hne. split.
  - intros Hin. apply in_map_iff in Hin. destruct Hin as (PO0 & HPO0 & Hin).
    assert (Hkey : ProductOptions.product_option_no PO0 <> no).
    { rewrite <- (decrement_key no q PO0), HPO0. exact Hne. }
    rewrite decrement_other in HPO0 by exact Hkey. now subst.
  - intros Hin. rewrite <- (decrement_other no q PO Hne). now apply in_map.
Qed.

(** C3: on a store where product_option_no is a key, the quantity keys in use
    lie below the AUTO_INCREMENT counter, the clock is not at the open-ended
    literal and the ordered option is live with exactly one open-ended
    quantity fact, a reservation that the stock covers returns 1; afterwards
    the counter read back is the old one less the quantity, the option has
    exactly one open-ended fact, it is the new one, and its quantity is that
    counter.  A reservation the stock does not cover raises the out-of-stock
    error and leaves the store as it was.  Either way the lockstep of
    counter and open-ended fact is kept for every option. *)
Theorem check_and_reserve_lockstep order_info d PO origin :
  let no := OrderInfo.product_option_no order_info in
  let q := OrderInfo.quantity order_info in
  let c := ProductOptions.current_quantity PO in
  option_key d ->
  quantity_no_fresh d ->
  now d <> MAX_TIME ->
  In PO (product_options d) ->
  ProductOptions.product_option_no PO = no ->
  ProductOptions.is_deleted PO = false ->
  open_facts no d = [origin] ->
  (q <= c ->
   exists d',
     check_and_reserve order_info d = (Ok 1, d')
     /\ get_current_quantity no d' = (Ok (Some (c - q)), d')
     /\ product_options d' = map (decrement no q) (product_options d)
     /\ open_facts no d'
        = [ {| Quantities.quantity_no := next_quantity_no d;
               Quantities.product_option_id := no;
               Quantities.quantity := Some (c - q);
               Quantities.start_time := now d;
               Quantities.close_time := MAX_TIME |} ]
     /\ (lockstep d -> lockstep d'))
  /\ (c < q -> check_and_reserve order_info d = (Raise "OutOfStock", d))
  /\ (lockstep d -> lockstep (snd (check_and_reserve order_info d))).
Proof.
  intros no q c Hkey Hfresh Hnow HPO Hno Hdel Horigin.
  assert (Hrows : get_current_quantity_rows no d = [c]).
  { unfold get_current_quantity_rows.
    rewrite (filter_andb
               (fun PO => ProductOptions.product_option_no PO =? no)
               (fun PO => negb (ProductOptions.is_deleted PO))).
    rewrite (option_row_unique no (product_options d) PO Hkey HPO Hno).
    cbn [filter]. rewrite Hdel. reflexivity. }
  assert (Hshort : c < q ->
                   check_and_reserve order_info d = (Raise "OutOfStock", d)).
  { intros Hlt. unfold check_and_reserve, rollback, bind, get_current_quantity.
    fold no q. rewrite Hrows. cbn [fetchone hd_error].
    replace (c >=? q) with false; [reflexivity|].
    symmetry. rewrite Z.geb_leb. apply Z.leb_gt. exact Hlt. }
  assert (Hcovered :
            q <= c ->
            exists d',
              check_and_reserve order_info d = (Ok 1, d')
              /\ get_current_quantity no d' = (Ok (Some (c - q)), d')
              /\ product_options d' = map (decrement no q) (product_options d)
              /\ open_facts no d'
                 = [ {| Quantities.quantity_no := next_quantity_no d;
                        Quantities.product_option_id := no;
                        Quantities.quantity := Some (c - q);
                        Quantities.start_time := now d;
                        Quantities.close_time := MAX_TIME |} ]
              /\ (lockstep d -> lockstep d')).
  { intros Hle.
    set (new := {| Quantities.quantity_no := next_quantity_no d;
                   Quantities.product_option_id := no;
                   Quantities.quantity := Some (c - q);
                   Quantities.start_time := now d;
                   Quantities.close_time := MAX_TIME |}).
    set (info := {| UpdateQuantityInfo.start_time := now d;
                    UpdateQuantityInfo.origin_quantity_no :=
                      Quantities.quantity_no origin |}).
    assert (Hsub : map ProductOptions.current_quantity
                       (filter (fun PO => ProductOptions.product_option_no PO =? no)
                               (map (decrement no q) (product_options d)))
                   = [c - q]).
    { rewrite decrement_filter,
        (option_row_unique no (product_options d) PO Hkey HPO Hno).
      simpl. now rewrite decrement_counter. }
    assert (Hrun : check_and_reserve order_info d
                   = (Ok 1,
                      set_quantities
                        (set_product_options d
                           (map (decrement no q) (product_options d)))
                        (map (close_fact info) (quantities d ++ [new]))
                        (next_quantity_no d + 1))).
    { unfold check_and_reserve, rollback, bind, get_current_quantity.
      fold no q. rewrite Hrows. cbn [fetchone hd_error].
      replace (c >=? q) with true by (symmetry; now apply Z.geb_le).
      rewrite update_current_quantity_eq, get_origin_quantity_no_eq.
      fold no q. unfold open_facts in *. cbn [quantities set_product_options].
      rewrite Horigin. cbn [map fetchone hd_error].
      unfold insert_quantities. cbn [product_options set_product_options].
      fold no. rewrite Hsub.
      cbn [fetchone hd_error Z.leb Z.compare next_quantity_no now quantities
             set_product_options].
      fold new.
      unfold get_quantity_start_time. cbn [quantities set_quantities].
      rewrite (fresh_fact_start (next_quantity_no d) new (quantities d)
                 Hfresh eq_refl).
      cbn [map fetchone hd_error Quantities.start_time new].
      rewrite update_quantities_eq. reflexivity. }
    assert (Horigin_in : In origin (quantities d)
                         /\ (Quantities.product_option_id origin =? no)
                            && (Quantities.close_time origin =? MAX_TIME) = true).
    { apply (proj1 (filter_In
                      (fun Q => (Quantities.product_option_id Q =? no)
                                && (Quantities.close_time Q =? MAX_TIME))
                      origin (quantities d))).
      unfold open_facts in Horigin. rewrite Horigin. now left. }
    assert (Hnew_kept : close_fact info new = new).
    { unfold close_fact. cbn [Quantities.quantity_no new info
                                UpdateQuantityInfo.origin_quantity_no].
      destruct (Z.eqb_spec (next_quantity_no d) (Quantities.quantity_no origin))
        as [E|E]; [|reflexivity].
      exfalso. unfold quantity_no_fresh in Hfresh. rewrite Forall_forall in Hfresh.
      specialize (Hfresh origin (proj1 Horigin_in)). lia. }
    assert (Hold_closed :
              filter (fun Q => (Quantities.product_option_id Q =? no)
                               && (Quantities.close_time Q =? MAX_TIME))
                     (map (close_fact info) (quantities d)) = []).
    { apply filter_nil_iff. intros Q' HQ'. apply in_map_iff in HQ'.
      destruct HQ' as (Q0 & <- & HQ0).
      destruct ((Quantities.product_option_id (close_fact info Q0) =? no)
                && (Quantities.close_time (close_fact info Q0) =? MAX_TIME))
        eqn:Hopen; [|reflexivity].
      exfalso.
      destruct (close_fact_open info no Q0 Hnow Hopen) as (_ & Hne & Hopen0).
      apply Hne. unfold open_facts in Horigin.
      now rewrite (filter_singleton_unique _ _ _ Q0 Horigin HQ0 Hopen0). }
    assert (Hopen' :
              filter (fun Q => (Quantities.product_option_id Q =? no)
                               && (Quantities.close_time Q =? MAX_TIME))
                     (map (close_fact info) (quantities d ++ [new])) = [new]).
    { rewrite map_app, filter_app, Hold_closed. cbn [map]. rewrite Hnew_kept.
      cbn [filter new Quantities.product_option_id Quantities.close_time app].
      now rewrite !Z.eqb_refl. }
    eexists. split; [exact Hrun|].
    unfold get_current_quantity, get_current_quantity_rows.
    cbn [product_options quantities set_quantities set_product_options].
    unfold open_facts. cbn [quantities set_quantities].
    split.
    { rewrite counter_rows_after_decrement.
      unfold get_current_quantity_rows in Hrows. rewrite Hrows. reflexivity. }
    split; [reflexivity|]. split; [exact Hopen'|].
    intros Hlock PO' Q' HPO' HQ' Hid Hclose.
    cbn [product_options quantities set_quantities set_product_options] in HPO', HQ'.
    apply in_map_iff in HPO'. destruct HPO' as (PO0 & <- & HPO0).
    rewrite decrement_key in Hid.
    destruct (Z.eq_dec (ProductOptions.product_option_no PO0) no) as [E|E].
    - (* the ordered option: its only open-ended fact is the new one *)
      assert (PO0 = PO) as ->.
      { pose proof (option_row_unique no (product_options d) PO Hkey HPO Hno) as Hu.
        apply (filter_singleton_unique _ _ _ PO0 Hu HPO0).
        now apply Z.eqb_eq. }
      assert (HQnew : In Q' [new]).
      { rewrite <- Hopen'. apply filter_In. split; [assumption|].
        rewrite Hid, E, Hclose, !Z.eqb_refl. reflexivity. }
      destruct HQnew as [<- | []].
      rewrite decrement_counter by assumption. reflexivity.
    - (* any other option: counter and open-ended facts as before *)
      rewrite decrement_other by assumption.
      rewrite map_app in HQ'. apply in_app_or in HQ'.
      destruct HQ' as [HQ' | HQ'].
      + apply in_map_iff in HQ'. destruct HQ' as (Q0 & <- & HQ0).
        assert (Hopen : (Quantities.product_option_id (close_fact info Q0)
                           =? ProductOptions.product_option_no PO0)
                        && (Quantities.close_time (close_fact info Q0) =? MAX_TIME)
                        = true).
        { rewrite Hid, Hclose, !Z.eqb_refl. reflexivity. }
        destruct (close_fact_open info _ Q0 Hnow Hopen) as (Hsame & _ & Hopen0).
        rewrite Hsame in *. now apply Hlock.
      + cbn [map] in HQ'. rewrite Hnew_kept in HQ'. destruct HQ' as [<- | []].
        cbn [new Quantities.product_option_id] in Hid. congruence. }
  split; [exact Hcovered|]. split; [exact Hshort|].
  intros Hlock. destruct (Z_le_gt_dec q c) as [Hle|Hgt].
  - destruct (Hcovered Hle) as (d' & Hrun & _ & _ & _ & Hkeep).
    rewrite Hrun. now apply Hkeep.
  - rewrite Hshort by lia. exact Hlock.
Qed.

Lemma check_and_reserve_lockstep_witness :
  (exists d',
      check_and_reserve (sample_order 2) (stocked_db 5) = (Ok 1, d')
      /\ map Quantities.quantity (open_facts 1 d') = [Some 3]
      /\ fst (get_current_quantity 1 d') = Ok (Some 3))
  /\ check_and_reserve (sample_order 2) (stocked_db 1)
     = (Raise "OutOfStock", stocked_db 1).
Proof.
  split.
  - destruct (check_and_reserve_lockstep (sample_order 2) (stocked_db 5)
                (sample_option 5) (sample_fact 1 5 10 MAX_TIME))
      as (Hcovered & _ & _).
    + repeat constructor. simpl. tauto.
    + repeat constructor.
    + discriminate.
    + now left.
    + reflexivity.
    + reflexivity.
    + reflexivity.
    + destruct Hcovered as (d' & Hrun & Hcounter & _ & Hopen & _);
        [cbn; lia|].
      change (OrderInfo.product_option_no (sample_order 2)) with 1 in *.
      exists d'. split; [exact Hrun|]. split.
      * rewrite Hopen. reflexivity.
      * rewrite Hcounter. reflexivity.
  - destruct (check_and_reserve_lockstep (sample_order 2) (stocked_db 1)
                (sample_option 1) (sample_fact 1 1 10 MAX_TIME))
      as (_ & Hshort & _).
    + repeat constructor. simpl. tauto.
    + repeat constructor.
    + discriminate.
    + now left.
    + reflexivity.
    + reflexivity.
    + reflexivity.
    + apply Hshort. cbn. lia.
Defined.

(** ** The stock check of a reservation *)

(** C1: a reservation reads the counter of the option and compares it with
    the requested quantity.  When the counter is below the quantity it
    raises the out-of-stock error and the store is as before; whatever it
    raises, the store is as before.  When it returns, the check held: the
    counter read before was at least the quantity, the counter read after
    is that counter less the quantity and is not below zero, every live
    counter under the key went down by the quantity, and the rows of the
    other options are as before.  On a store where product_option_no is a
    key and the option has an open-ended quantity fact, a reservation that
    the stock covers returns 1. *)
Theorem check_and_reserve_guards_stock order_info d :
  let no := OrderInfo.product_option_no order_info in
  let q := OrderInfo.quantity order_info in
  (forall c,
      fst (get_current_quantity no d) = Ok (Some c) ->
      c < q ->
      check_and_reserve order_info d = (Raise "OutOfStock", d))
  /\ (forall msg d',
        check_and_reserve order_info d = (Raise msg, d') -> d' = d)
  /\ (forall r d',
        check_and_reserve order_info d = (Ok r, d') ->
        r = 1
        /\ exists c,
             fst (get_current_quantity no d) = Ok (Some c)
             /\ q <= c
             /\ fst (get_current_quantity no d') = Ok (Some (c - q))
             /\ 0 <= c - q
             /\ get_current_quantity_rows no d'
                = map (fun c => c - q) (get_current_quantity_rows no d)
             /\ forall PO,
                  ProductOptions.product_option_no PO <> no ->
                  In PO (product_options d') <-> In PO (product_options d))
  /\ (forall c,
        option_key d ->
        fst (get_current_quantity no d) = Ok (Some c) ->
        q <= c ->
        open_facts no d <> [] ->
        exists d', check_and_reserve order_info d = (Ok 1, d')).
Proof.
  intros no q. split; [|split; [|split]].
  - intros c Hc Hlt. cbn in Hc. injection Hc as Hc.
    unfold check_and_reserve, rollback, bind, get_current_quantity.
    fold no q. rewrite Hc.
    replace (c >=? q) with false; [reflexivity|].
    symmetry. rewrite Z.geb_leb. apply Z.leb_gt. exact Hlt.
  - intros msg d' Hrun.
    destruct (check_and_reserve_cases order_info d)
      as [(msg0 & Hraise) | (c & d0 & Hok & _)]; congruence.
  - intros r d' Hrun.
    destruct (check_and_reserve_cases order_info d)
      as [(msg0 & Hraise) | (c & d0 & Hok & Hc & Hle & Hopts)];
      [congruence|].
    fold no q in Hc, Hle, Hopts.
    rewrite Hok in Hrun. injection Hrun as <- <-.
    split; [reflexivity|]. exists c.
    assert (Hrows : get_current_quantity_rows no d0
                    = map (fun c => c - q) (get_current_quantity_rows no d)).
    { unfold get_current_quantity_rows. rewrite Hopts.
      apply counter_rows_after_decrement. }
    split; [cbn; now rewrite Hc|]. split; [exact Hle|].
    split.
    { cbn. rewrite Hrows.
      destruct (get_current_quantity_rows no d) as [|c0 rest];
        [discriminate|].
      cbn in Hc |- *. now injection Hc as ->. }
    split; [lia|]. split; [exact Hrows|].
    intros PO Hne. rewrite Hopts. now apply decrement_others_kept.
  - intros c Hkey Hc Hle Hopen. cbn in Hc. injection Hc as Hc.
    now apply (check_and_reserve_runs order_info d c).
Qed.

Lemma check_and_reserve_guards_stock_witness :
  check_and_reserve (sample_order 2) (stocked_db 1)
  = (Raise "OutOfStock", stocked_db 1)
  /\ exists d',
       check_and_reserve (sample_order 2) (stocked_db 5) = (Ok 1, d')
       /\ fst (get_current_quantity 1 d') = Ok (Some 3).
Proof.
  split.
  - apply (proj1 (check_and_reserve_guards_stock (sample_order 2) (stocked_db 1))
             1); [reflexivity | cbn; lia].
  - destruct (check_and_reserve_guards_stock (sample_order 2) (stocked_db 5))
      as (_ & _ & Hafter & Hruns).
    destruct (Hruns 5) as (d' & Hrun);
      [repeat constructor; simpl; tauto | reflexivity | cbn; lia | discriminate |].
    exists d'. split; [exact Hrun|].
    destruct (Hafter 1 d' Hrun) as (_ & c & Hbefore & _ & Hcounter & _).
    cbn in Hbefore. injection Hbefore as <-. exact Hcounter.
Defined.

(** ** Catalog list endpoint *)

(** C10: once the connection is there and the product list is resolved, the
    endpoint answers 200 with a data array: the empty array when the list is
    [None] or empty, never null, and the list itself when it has
    products. *)
Theorem product_list_returns_data (connection product : Type)
    (get_connection : result (option connection))
    (select_product_list : connection -> result (option (list product)))
    (db_connection : connection) (products : option (list product)) :
  get_connection = Ok (Some db_connection) ->
  select_product_list db_connection = Ok products ->
  (ProductList.not_ products = true ->
   ProductList.product_list get_connection select_product_list
   = Ok (ProductList.Data (Some []), 200))
  /\ (forall p ps,
        products = Some (p :: ps) ->
        ProductList.product_list get_connection select_product_list
        = Ok (ProductList.Data (Some (p :: ps)), 200))
  /\ ProductList.product_list get_connection select_product_list
     = Ok (ProductList.Data
             (Some match products with Some ps => ps | None => [] end), 200).
Proof.
  intros Hconn Hlist.
  unfold ProductList.product_list, ProductList.get_product_list.
  rewrite Hconn, Hlist.
  repeat split.
  - now intros ->.
  - now intros p ps ->.
  - now destruct products as [[|p ps]|].
Qed.

Lemma product_list_returns_data_witness :
  ProductList.product_list (Ok (Some tt)) (fun _ : unit => Ok (@None (list Z)))
  = Ok (ProductList.Data (Some []), 200)
  /\ ProductList.product_list (Ok (Some tt)) (fun _ : unit => Ok (Some [7; 8]))
     = Ok (ProductList.Data (Some [7; 8]), 200).
Proof.
  split.
  - apply (product_list_returns_data unit Z (Ok (Some tt))
             (fun _ : unit => Ok (@None (list Z))) tt None eq_refl eq_refl).
  - apply (product_list_returns_data unit Z (Ok (Some tt))
             (fun _ : unit => Ok (Some [7; 8])) tt (Some [7; 8])
             eq_refl eq_refl).
Defined.

(** * Further properties of the data-access layer *)

(** ** Closing and opening quantity facts *)

Lemma close_fact_columns info Q :
  Quantities.quantity_no (close_fact info Q) = Quantities.quantity_no Q
  /\ Quantities.product_option_id (close_fact info Q)
     = Quantities.product_option_id Q
  /\ Quantities.quantity (close_fact info Q) = Quantities.quantity Q
  /\ Quantities.start_time (close_fact info Q) = Quantities.start_time Q.
Proof. unfold close_fact. destruct (_ =? _); repeat split. Qed.

Lemma map_close_fact_column {B} (f : Quantities.row -> B) info l :
  (forall Q, f (close_fact info Q) = f Q) ->
  map f (map (close_fact info) l) = map f l.
Proof.
  intros H. rewrite map_map. apply map_ext. exact H.
Qed.

(** X1: [update_quantities] with a close time other than the open-ended
    literal returns 1; afterwards [get_origin_quantity_no] returns the
    closed key for no option, no fact that was closed is open again, and
    the ledger keeps its length and the key, option, quantity and start
    time of every fact: only close times move.  The counters are not
    touched. *)
Theorem update_quantities_closes_for_good info d :
  UpdateQuantityInfo.start_time info <> MAX_TIME ->
  exists d',
    update_quantities info d = (Ok 1, d')
    /\ (forall order_info,
          fst (get_origin_quantity_no order_info d')
          <> Ok (Some (UpdateQuantityInfo.origin_quantity_no info)))
    /\ (forall no Q, In Q (open_facts no d') -> In Q (open_facts no d))
    /\ map Quantities.quantity_no (quantities d')
       = map Quantities.quantity_no (quantities d)
    /\ map Quantities.product_option_id (quantities d')
       = map Quantities.product_option_id (quantities d)
    /\ map Quantities.quantity (quantities d')
       = map Quantities.quantity (quantities d)
    /\ map Quantities.start_time (quantities d')
       = map Quantities.start_time (quantities d)
    /\ product_options d' = product_options d.
Proof.
  intros Hst. eexists. split; [apply update_quantities_eq|].
  assert (Hopen : forall no Q,
            In Q (open_facts no
                    (set_quantities d (map (close_fact info) (quantities d))
                       (next_quantity_no d))) ->
            In Q (open_facts no d)
            /\ Quantities.quantity_no Q
               <> UpdateQuantityInfo.origin_quantity_no info).
  { intros no Q HQ. unfold open_facts in *. cbn [quantities set_quantities] in HQ.
    apply filter_In in HQ. destruct HQ as (HQ & Hp).
    apply in_map_iff in HQ. destruct HQ as (Q0 & <- & HQ0).
    destruct (close_fact_open info no Q0 Hst Hp) as (Hsame & Hne & Hp0).
    rewrite Hsame. split; [|assumption].
    apply filter_In. now split. }
  split; [|split; [intros no Q HQ; now apply Hopen|]].
  - intros order_info. rewrite get_origin_quantity_no_eq. cbn [fst].
    intros Heq. injection Heq as Heq.
    destruct (open_facts (OrderInfo.product_option_no order_info) _)
      as [|Q rest] eqn:Hrows; [discriminate|].
    cbn in Heq. injection Heq as Heq.
    destruct (Hopen (OrderInfo.product_option_no order_info) Q) as (_ & Hne).
    + rewrite Hrows. now left.
    + contradiction.
  - cbn [quantities product_options set_quantities].
    repeat split; apply map_close_fact_column; intros Q; apply close_fact_columns.
Qed.

Lemma update_quantities_closes_for_good_witness :
  exists d',
    update_quantities {| UpdateQuantityInfo.start_time := 1000;
                         UpdateQuantityInfo.origin_quantity_no := 1 |}
      (stocked_db 5) = (Ok 1, d')
    /\ fst (get_origin_quantity_no (sample_order 1) d') <> Ok (Some 1).
Proof.
  destruct (update_quantities_closes_for_good
              {| UpdateQuantityInfo.start_time := 1000;
                 UpdateQuantityInfo.origin_quantity_no := 1 |} (stocked_db 5))
    as (d' & Hrun & Hgone & _).
  - discriminate.
  - exists d'. split; [exact Hrun | apply Hgone].
Defined.

(** X2: on a store where product_option_no is a key and the quantity keys
    in use lie below the AUTO_INCREMENT counter, [insert_quantities] for an
    existing option returns the new key and appends one open-ended fact that
    carries the option's counter and starts now.  The fact is read back:
    [get_quantity_start_time] of the returned key gives the current time,
    the key is among the open-ended facts of the option, and it is the one
    [get_origin_quantity_no] returns when the option had no open-ended fact
    before.  The keys in use stay below the counter. *)
Theorem insert_quantities_read_back order_info d PO :
  let no := OrderInfo.product_option_no order_info in
  option_key d ->
  quantity_no_fresh d ->
  In PO (product_options d) ->
  ProductOptions.product_option_no PO = no ->
  exists d',
    insert_quantities order_info d = (Ok (next_quantity_no d), d')
    /\ quantities d'
       = quantities d
         ++ [ {| Quantities.quantity_no := next_quantity_no d;
                 Quantities.product_option_id := no;
                 Quantities.quantity := Some (ProductOptions.current_quantity PO);
                 Quantities.start_time := now d;
                 Quantities.close_time := MAX_TIME |} ]
    /\ product_options d' = product_options d
    /\ get_quantity_start_time (next_quantity_no d) d' = (Ok (now d), d')
    /\ In (next_quantity_no d) (map Quantities.quantity_no (open_facts no d'))
    /\ (open_facts no d = [] ->
        get_origin_quantity_no order_info d' = (Ok (Some (next_quantity_no d)), d'))
    /\ quantity_no_fresh d'.
Proof.
  intros no Hkey Hfresh HPO Hno.
  set (new := {| Quantities.quantity_no := next_quantity_no d;
                 Quantities.product_option_id := no;
                 Quantities.quantity := Some (ProductOptions.current_quantity PO);
                 Quantities.start_time := now d;
                 Quantities.close_time := MAX_TIME |}).
  assert (Hrun : insert_quantities order_info d
                 = (Ok (next_quantity_no d),
                    set_quantities d (quantities d ++ [new])
                      (next_quantity_no d + 1))).
  { unfold insert_quantities. fold no.
    rewrite (option_row_unique no (product_options d) PO Hkey HPO Hno).
    reflexivity. }
  assert (Hnew_open : open_facts no
                        (set_quantities d (quantities d ++ [new])
                           (next_quantity_no d + 1))
                      = open_facts no d ++ [new]).
  { unfold open_facts. cbn [quantities set_quantities].
    rewrite filter_app. cbn [filter new Quantities.product_option_id
                               Quantities.close_time].
    now rewrite !Z.eqb_refl. }
  eexists. split; [exact Hrun|].
  split; [reflexivity|]. split; [reflexivity|].
  split; [|split; [|split]].
  - unfold get_quantity_start_time. cbn [quantities set_quantities].
    now rewrite (fresh_fact_start (next_quantity_no d) new (quantities d)
                   Hfresh eq_refl).
  - rewrite Hnew_open, map_app. apply in_or_app. right. now left.
  - intros Hnone. rewrite get_origin_quantity_no_eq. fold no.
    rewrite Hnew_open, Hnone. reflexivity.
  - unfold quantity_no_fresh in *. cbn [quantities next_quantity_no set_quantities].
    apply Forall_app. split.
    + eapply Forall_impl; [|exact Hfresh]. intros Q HQ. simpl in HQ. lia.
    + constructor; [cbn; lia | constructor].
Qed.

Lemma insert_quantities_read_back_witness :
  exists d',
    insert_quantities (sample_order 2) closed_only_db = (Ok 2, d')
    /\ get_quantity_start_time 2 d' = (Ok 1000, d')
    /\ get_origin_quantity_no (sample_order 2) d' = (Ok (Some 2), d').
Proof.
  destruct (insert_quantities_read_back (sample_order 2) closed_only_db
              (sample_option 5))
    as (d' & Hrun & _ & _ & Hstart & _ & Horigin & _).
  - repeat constructor. simpl. tauto.
  - repeat constructor.
  - now left.
  - reflexivity.
  - exists d'. split; [exact Hrun|]. split; [exact Hstart|].
    apply Horigin. reflexivity.
Defined.

(** ** Decrements of the counter *)

Lemma set_product_options_same d : set_product_options d (product_options d) = d.
Proof. now destruct d. Qed.

Lemma decrement_decrement no q1 q2 PO :
  decrement no q2 (decrement no q1 PO) = decrement no (q1 + q2) PO.
Proof.
  unfold decrement at 2 3.
  destruct (Z.eqb_spec (ProductOptions.product_option_no PO) no) as [E|E].
  - unfold decrement. cbn [ProductOptions.product_option_no].
    rewrite (proj2 (Z.eqb_eq _ _) E). cbn. f_equal. lia.
  - now apply decrement_other.
Qed.

Lemma decrement_zero no PO : decrement no 0 PO = PO.
Proof.
  unfold decrement. destruct (_ =? _); [|reflexivity].
  destruct PO. cbn. f_equal. lia.
Qed.

(** X3: decrements of one option add up: two calls of
    [update_current_quantity], in either order, leave the store that one
    call with the sum of the two quantities leaves. *)
Theorem update_current_quantity_adds_up order_info1 order_info2 order_info d :
  OrderInfo.product_option_no order_info1 = OrderInfo.product_option_no order_info ->
  OrderInfo.product_option_no order_info2 = OrderInfo.product_option_no order_info ->
  OrderInfo.quantity order_info
  = OrderInfo.quantity order_info1 + OrderInfo.quantity order_info2 ->
  snd (update_current_quantity order_info2
         (snd (update_current_quantity order_info1 d)))
  = snd (update_current_quantity order_info d)
  /\ snd (update_current_quantity order_info1
            (snd (update_current_quantity order_info2 d)))
     = snd (update_current_quantity order_info d).
Proof.
  intros H1 H2 Hq.
  assert (Htwice : forall o1 o2,
            snd (update_current_quantity o2 (snd (update_current_quantity o1 d)))
            = set_product_options d
                (map (decrement (OrderInfo.product_option_no o2)
                                (OrderInfo.quantity o2))
                     (map (decrement (OrderInfo.product_option_no o1)
                                     (OrderInfo.quantity o1))
                          (product_options d)))).
  { intros o1 o2. rewrite (update_current_quantity_eq o1 d). cbn [snd].
    rewrite update_current_quantity_eq. reflexivity. }
  rewrite !Htwice, update_current_quantity_eq. cbn [snd].
  rewrite !map_map, H1, H2, Hq.
  split; apply (f_equal (set_product_options d)); apply map_ext; intros PO;
    rewrite decrement_decrement; [reflexivity|].
  now rewrite Z.add_comm.
Qed.

Lemma update_current_quantity_adds_up_witness :
  fst (get_current_quantity 1
         (snd (update_current_quantity (sample_order 2)
                 (snd (update_current_quantity (sample_order 1) (stocked_db 5))))))
  = Ok (Some 2).
Proof.
  rewrite (proj1 (update_current_quantity_adds_up (sample_order 1) (sample_order 2)
                    (sample_order 3) (stocked_db 5) eq_refl eq_refl eq_refl)).
  reflexivity.
Defined.

(** X4: [update_current_quantity] reports success without changing the
    store when the quantity is 0 or when no option row carries the key; in
    the second case [get_current_quantity] returns [None]. *)
Theorem update_current_quantity_without_effect order_info d :
  OrderInfo.quantity order_info = 0
  \/ (forall PO, In PO (product_options d) ->
        ProductOptions.product_option_no PO
        <> OrderInfo.product_option_no order_info) ->
  update_current_quantity order_info d = (Ok 1, d)
  /\ (OrderInfo.quantity order_info <> 0 ->
      fst (get_current_quantity (OrderInfo.product_option_no order_info) d)
      = Ok None).
Proof.
  intros Hcase. split.
  - rewrite update_current_quantity_eq.
    assert (Hmap : map (decrement (OrderInfo.product_option_no order_info)
                                  (OrderInfo.quantity order_info))
                       (product_options d)
                   = product_options d).
    { rewrite <- (map_id (product_options d)) at 2. apply map_ext_in.
      intros PO HPO. destruct Hcase as [Hq | Hmissing].
      - rewrite Hq. apply decrement_zero.
      - apply decrement_other. now apply Hmissing. }
    now rewrite Hmap, set_product_options_same.
  - intros Hq. destruct Hcase as [Hq0 | Hmissing]; [contradiction|].
    unfold get_current_quantity, get_current_quantity_rows. cbn [fst].
    replace (filter _ (product_options d)) with (@nil ProductOptions.row);
      [reflexivity|].
    symmetry. apply filter_nil_iff. intros PO HPO.
    apply andb_false_iff. left. apply Z.eqb_neq. now apply Hmissing.
Qed.

Lemma update_current_quantity_without_effect_witness :
  update_current_quantity (sample_order 0) (stocked_db 5) = (Ok 1, stocked_db 5)
  /\ update_current_quantity (sample_order 2) empty_db = (Ok 1, empty_db).
Proof.
  split.
  - apply (update_current_quantity_without_effect (sample_order 0) (stocked_db 5)).
    left. reflexivity.
  - apply (update_current_quantity_without_effect (sample_order 2) empty_db).
    right. intros PO [].
Defined.

(** ** Looking up the option of an order *)

Lemma fetchone_map_filter {A B} (f : A -> B) (p : A -> bool) (l : list A) b :
  fetchone (map f (filter p l)) = Some b ->
  exists a, In a l /\ p a = true /\ f a = b.
Proof.
  destruct (filter p l) as [|a rest] eqn:Hf; [discriminate|].
  cbn. intros Hb. injection Hb as <-.
  assert (Hin : In a (filter p l)) by (rewrite Hf; now left).
  apply filter_In in Hin. exists a. tauto.
Qed.

Lemma fetchone_map_filter_none {A B} (f : A -> B) (p : A -> bool) (l : list A) :
  fetchone (map f (filter p l)) = None <-> forall a, In a l -> p a = false.
Proof.
  rewrite <- filter_nil_iff.
  destruct (filter p l); cbn; split; congruence.
Qed.

(** X5: the key [get_product_option_no] returns belongs to an option row
    that is not deleted and has the color, size and product of the order,
    and [get_current_quantity] finds a counter under that key, the counter
    of that row when product_option_no is a key.  It returns [None] exactly
    when no such row exists. *)
Theorem get_product_option_no_is_stocked order_info d :
  (forall no,
      fst (get_product_option_no order_info d) = Ok (Some no) ->
      exists PO,
        In PO (product_options d)
        /\ ProductOptions.product_option_no PO = no
        /\ ProductOptions.is_deleted PO = false
        /\ ProductOptions.color_id PO = OrderInfo.color_id order_info
        /\ ProductOptions.size_id PO = OrderInfo.size_id order_info
        /\ ProductOptions.product_id PO = OrderInfo.product_id order_info
        /\ (exists c, fst (get_current_quantity no d) = Ok (Some c))
        /\ (option_key d ->
            fst (get_current_quantity no d)
            = Ok (Some (ProductOptions.current_quantity PO))))
  /\ (fst (get_product_option_no order_info d) = Ok None <->
      forall PO,
        In PO (product_options d) ->
        ~ (ProductOptions.is_deleted PO = false
           /\ ProductOptions.color_id PO = OrderInfo.color_id order_info
           /\ ProductOptions.size_id PO = OrderInfo.size_id order_info
           /\ ProductOptions.product_id PO = OrderInfo.product_id order_info)).
Proof.
  unfold get_product_option_no, get_product_option_no_rows. cbn [fst]. split.
  - intros no Hsome. injection Hsome as Hsome.
    apply fetchone_map_filter in Hsome.
    destruct Hsome as (PO & HPO & Hp & Hno).
    apply andb_prop in Hp. destruct Hp as (Hp & Hproduct).
    apply andb_prop in Hp. destruct Hp as (Hp & Hdeleted).
    apply andb_prop in Hp. destruct Hp as (Hcolor & Hsize).
    apply Z.eqb_eq in Hproduct, Hcolor, Hsize. apply negb_true_iff in Hdeleted.
    exists PO. repeat split; try assumption.
    + unfold get_current_quantity, get_current_quantity_rows. cbn [fst].
      destruct (filter _ (product_options d)) as [|PO' rest] eqn:Hf.
      * pose proof (proj1 (filter_nil_iff _ _) Hf PO HPO) as Hp.
        cbn beta in Hp. rewrite Hno, Z.eqb_refl, Hdeleted in Hp. discriminate.
      * cbn. eauto.
    + intros Hkey. unfold get_current_quantity, get_current_quantity_rows.
      cbn [fst].
      rewrite (filter_andb (fun PO => ProductOptions.product_option_no PO =? no)
                 (fun PO => negb (ProductOptions.is_deleted PO))).
      rewrite (option_row_unique no (product_options d) PO Hkey HPO Hno).
      cbn. now rewrite Hdeleted.
  - split.
    + intros Hnone. injection Hnone as Hnone.
      rewrite fetchone_map_filter_none in Hnone.
      intros PO HPO (Hdeleted & Hcolor & Hsize & Hproduct).
      specialize (Hnone PO HPO).
      rewrite Hdeleted, Hcolor, Hsize, Hproduct, !Z.eqb_refl in Hnone.
      discriminate.
    + intros Hnone. f_equal. apply fetchone_map_filter_none.
      intros PO HPO.
      destruct ((ProductOptions.color_id PO =? OrderInfo.color_id order_info)
                && (ProductOptions.size_id PO =? OrderInfo.size_id order_info)
                && negb (ProductOptions.is_deleted PO)
                && (ProductOptions.product_id PO =? OrderInfo.product_id order_info))
        eqn:Hp; [|reflexivity].
      exfalso. apply (Hnone PO HPO).
      apply andb_prop in Hp. destruct Hp as (Hp & Hproduct).
      apply andb_prop in Hp. destruct Hp as (Hp & Hdeleted).
      apply andb_prop in Hp. destruct Hp as (Hcolor & Hsize).
      apply Z.eqb_eq in Hproduct, Hcolor, Hsize. apply negb_true_iff in Hdeleted.
      tauto.
Qed.

Lemma get_product_option_no_is_stocked_witness :
  fst (get_product_option_no (sample_order 2) (stocked_db 5)) = Ok (Some 1)
  /\ fst (get_current_quantity 1 (stocked_db 5)) = Ok (Some 5).
Proof.
  split; [reflexivity|].
  destruct (proj1 (get_product_option_no_is_stocked (sample_order 2) (stocked_db 5))
              1 eq_refl)
    as (PO & HPO & _ & _ & _ & _ & _ & _ & Hcounter).
  destruct HPO as [<- | []].
  apply Hcounter. repeat constructor. simpl. tauto.
Defined.

(** X6: when [get_seller_product_info] returns a row, the product is
    listed, the row carries the product, color and size asked for, and
    [get_product_option_no] finds an option for the same order; whatever it
    answers, the store is left as it was. *)
Theorem seller_product_has_option product_info d row :
  fst (get_seller_product_info product_info d) = Ok row ->
  listed (OrderInfo.product_id product_info) d = true
  /\ SellerProductInfo.product_id row = OrderInfo.product_id product_info
  /\ SellerProductInfo.color_id row = Some (OrderInfo.color_id product_info)
  /\ SellerProductInfo.size_id row = Some (OrderInfo.size_id product_info)
  /\ (exists no, fst (get_product_option_no product_info d) = Ok (Some no))
  /\ snd (get_seller_product_info product_info d) = d.
Proof.
  unfold get_seller_product_info.
  destruct (fetchone (get_seller_product_info_rows product_info d))
    as [row'|] eqn:Hrow; cbn [fst snd]; [|discriminate].
  intros Heq. injection Heq as ->.
  unfold get_seller_product_info_rows in Hrow. cbv zeta in Hrow.
  apply fetchone_map_filter in Hrow.
  destruct Hrow as (tuple & Hin & Hwhere & Hrow).
  destruct tuple as [[[[[[P PD] PI] IM] PO] C] SZ].
  apply andb_prop in Hwhere. destruct Hwhere as (Hwhere & Hsize).
  apply andb_prop in Hwhere. destruct Hwhere as (Hwhere & Hcolor).
  apply andb_prop in Hwhere. destruct Hwhere as (Hdeleted & Hid).
  apply Z.eqb_eq in Hid.
  destruct C as [C|]; [|discriminate]. destruct SZ as [SZ|]; [|discriminate].
  cbn [nullable] in Hcolor, Hsize. apply Z.eqb_eq in Hcolor, Hsize.
  apply in_left_join in Hin. destruct Hin as (Hin & _ & Hon6).
  apply in_left_join in Hin. destruct Hin as (Hin & _ & Hon5).
  destruct PO as [PO|]; [|discriminate].
  cbn [nullable] in Hon5, Hon6. apply Z.eqb_eq in Hon5, Hon6.
  apply in_left_join in Hin. destruct Hin as (Hin & HPO & Hon4).
  apply andb_prop in Hon4. destruct Hon4 as (Hproduct & Hlive).
  apply Z.eqb_eq in Hproduct.
  apply in_left_join in Hin. destruct Hin as (Hin & _).
  apply in_left_join in Hin. destruct Hin as (Hin & _).
  apply in_left_join in Hin. destruct Hin as (HP & _).
  subst row. cbn.
  split; [|split; [assumption|split; [now rewrite Hcolor|split;
    [now rewrite Hsize|split; [|reflexivity]]]]].
  - unfold listed. apply existsb_exists. exists P. split; [assumption|].
    now rewrite Hdeleted, Hid, Z.eqb_refl.
  - unfold get_product_option_no_rows.
    destruct (filter _ (product_options d)) as [|PO' rest] eqn:Hf.
    + pose proof (proj1 (filter_nil_iff _ _) Hf PO HPO) as Hp. cbn beta in Hp.
      rewrite Hon5, Hcolor, Hon6, Hsize, Hlive, <- Hproduct, Hid, !Z.eqb_refl in Hp.
      discriminate.
    + cbn. eauto.
Qed.

Lemma seller_product_has_option_witness :
  exists no, fst (get_product_option_no (sample_order 1) unpriced_db) = Ok (Some no).
Proof.
  destruct (seller_product_has_option (sample_order 1) unpriced_db
              {| SellerProductInfo.product_id := 1;
                 SellerProductInfo.color_name := Some "black";
                 SellerProductInfo.color_id := Some 1;
                 SellerProductInfo.size_name := Some "M";
                 SellerProductInfo.size_id := Some 1;
                 SellerProductInfo.name := None;
                 SellerProductInfo.original_price := None;
                 SellerProductInfo.image_small := None;
                 SellerProductInfo.discount_rate := 0 |} eq_refl)
    as (_ & _ & _ & _ & Hno & _).
  exact Hno.
Defined.

(** ** Purchase bounds of a product *)

Lemma left_join_first {A B C} (keep : A -> bool) (on : A -> B -> bool)
    (f : option B -> C) (act : list B) (rows : list A) (tbl : list B) :
  (forall a, keep a = true -> filter (on a) tbl = act) ->
  fetchone (map (fun '(a, b) => f b)
                (filter (fun '(a, b) => keep a) (left_join rows tbl on)))
  = if existsb keep rows then Some (f (fetchone act)) else None.
Proof.
  intros Hact. induction rows as [|a rows IH]; [reflexivity|].
  unfold left_join. cbn [flat_map existsb]. fold (left_join rows tbl on).
  rewrite filter_app, map_app.
  destruct (keep a) eqn:Ha; cbn [orb].
  - rewrite (Hact a Ha). destruct act as [|b bs].
    + cbn. rewrite Ha. reflexivity.
    + rewrite (filter_joined_rows keep a (b :: bs)), Ha. reflexivity.
  - destruct (filter (on a) tbl) as [|b bs].
    + cbn. rewrite Ha. exact IH.
    + rewrite (filter_joined_rows keep a (b :: bs)), Ha. exact IH.
Qed.

Lemma range_detail_by_id P product_id l :
  Products.product_no P = product_id ->
  filter (range_detail P) l
  = filter (active_detail {| Products.product_no := product_id;
                             Products.is_deleted := false |}) l.
Proof.
  intros <-. apply filter_ext. intros PD. unfold range_detail, active_detail. cbn.
  destruct (_ =? _), (_ =? MAX_TIME), (ProductDetails.is_activated PD),
    (ProductDetails.is_displayed PD); reflexivity.
Qed.

(** X7: [select_product_quantity_range] never raises.  It returns [None]
    exactly when [select_product_info] raises THIS_PRODUCT_DOES_NOT_EXISTS,
    that is when no product row that is not deleted carries the id; for a
    listed product it returns the bounds of the detail row
    [select_product_info] prices, which are NULL when the product has no
    open-ended, activated and displayed detail row. *)
Theorem quantity_range_agrees_with_product_info product_info d :
  select_product_quantity_range product_info d
  = (Ok (if listed (OrderInfo.product_id product_info) d
         then Some (sales_quantity_of
                      (fetchone (active_details
                                   (OrderInfo.product_id product_info) d)))
         else None), d)
  /\ (fst (select_product_quantity_range product_info d) = Ok None <->
      fst (select_product_info product_info d)
      = Raise "THIS_PRODUCT_DOES_NOT_EXISTS")
  /\ sales_quantity_of None
     = {| SalesQuantity.min_sales_quantity := None;
          SalesQuantity.max_sales_quantity := None |}.
Proof.
  assert (Heq : select_product_quantity_range product_info d
                = (Ok (if listed (OrderInfo.product_id product_info) d
                       then Some (sales_quantity_of
                                    (fetchone (active_details
                                       (OrderInfo.product_id product_info) d)))
                       else None), d)).
  { unfold select_product_quantity_range. rewrite rowcount_nonneg.
    unfold select_product_quantity_range_rows, listed, active_details.
    rewrite (left_join_first
               (fun P => negb (Products.is_deleted P)
                         && (Products.product_no P
                             =? OrderInfo.product_id product_info))
               range_detail sales_quantity_of
               (filter (active_detail
                          {| Products.product_no :=
                               OrderInfo.product_id product_info;
                             Products.is_deleted := false |})
                       (product_details d))); [reflexivity|].
    intros P HP. apply range_detail_by_id.
    apply andb_prop in HP. now apply Z.eqb_eq. }
  split; [exact Heq|]. split; [|reflexivity].
  rewrite Heq, select_product_info_eq.
  destruct (listed (OrderInfo.product_id product_info) d); cbn [fst];
    split; intros H; try discriminate; reflexivity.
Qed.

(** ** What an order detail shows *)

(** X8: every row [get_detail] shows for an order detail carries the stored
    values of that order detail and of one of its line items: its number,
    order time (also shown as paid time), total price and delivery request,
    and the line item's quantity; the total is the stored one whatever the
    product's detail rows say.  For a number no order detail carries,
    [get_detail] returns [None]. *)
Theorem get_detail_shows_stored_order order_detail_id d :
  Forall (fun row =>
            exists P1 P11,
              In P1 (orders_details d) /\ In P11 (order_product d)
              /\ OrdersDetails.order_detail_no P1 = order_detail_id
              /\ OrderProduct.order_detail_id P11 = order_detail_id
              /\ OrderDetail.order_detail_no row = order_detail_id
              /\ OrderDetail.order_time row = OrdersDetails.start_time P1
              /\ OrderDetail.paid_time row = OrdersDetails.start_time P1
              /\ OrderDetail.total_price row = OrdersDetails.total_price P1
              /\ OrderDetail.delivery_request row
                 = OrdersDetails.delivery_request P1
              /\ OrderDetail.quantity row = OrderProduct.quantity P11)
         (get_detail_rows order_detail_id d)
  /\ ((forall P1, In P1 (orders_details d) ->
         OrdersDetails.order_detail_no P1 <> order_detail_id) ->
      get_detail order_detail_id d = (Ok None, d)).
Proof.
  assert (Hrows : forall row, In row (get_detail_rows order_detail_id d) ->
            exists P1 P11,
              In P1 (orders_details d) /\ In P11 (order_product d)
              /\ OrdersDetails.order_detail_no P1 = order_detail_id
              /\ OrderProduct.order_detail_id P11 = order_detail_id
              /\ OrderDetail.order_detail_no row = order_detail_id
              /\ OrderDetail.order_time row = OrdersDetails.start_time P1
              /\ OrderDetail.paid_time row = OrdersDetails.start_time P1
              /\ OrderDetail.total_price row = OrdersDetails.total_price P1
              /\ OrderDetail.delivery_request row
                 = OrdersDetails.delivery_request P1
              /\ OrderDetail.quantity row = OrderProduct.quantity P11).
  { unfold get_detail_rows. cbv zeta. intros row Hin.
    apply in_map_iff in Hin. destruct Hin as (tuple & Hrow & Hin).
    apply filter_In in Hin. destruct Hin as (Hin & Hwhere).
    destruct tuple as [[[[[[[[[[P1 P2] P3] P4] P11] P5] P6] P7] P8] P9] P10].
    apply Z.eqb_eq in Hwhere.
    apply in_inner_join in Hin. destruct Hin as (Hin & _ & _).
    apply in_inner_join in Hin. destruct Hin as (Hin & _ & _).
    apply in_inner_join in Hin. destruct Hin as (Hin & _ & _).
    apply in_inner_join in Hin. destruct Hin as (Hin & _ & _).
    apply in_inner_join in Hin. destruct Hin as (Hin & _ & _).
    apply in_inner_join in Hin. destruct Hin as (Hin & _ & _).
    apply in_inner_join in Hin. destruct Hin as (Hin & H11 & Hon11).
    apply Z.eqb_eq in Hon11.
    apply in_inner_join in Hin. destruct Hin as (Hin & _ & _).
    apply in_inner_join in Hin. destruct Hin as (Hin & _ & _).
    apply in_inner_join in Hin. destruct Hin as (H1 & _ & _).
    exists P1, P11. subst row. cbn.
    repeat split; try assumption. congruence. }
  split; [apply Forall_forall; exact Hrows|].
  intros Hunknown. unfold get_detail.
  destruct (get_detail_rows order_detail_id d) as [|row rest] eqn:Hempty;
    [reflexivity|].
  destruct (Hrows row (or_introl eq_refl)) as (P1 & _ & H1 & _ & Hno & _).
  exfalso. exact (Hunknown P1 H1 Hno).
Qed.

Lemma get_detail_shows_stored_order_witness :
  get_detail 7 boundary_db = (Ok None, boundary_db).
Proof.
  apply (proj2 (get_detail_shows_stored_order 7 boundary_db)).
  intros P1 [<- | []]. discriminate.
Defined.

(** ** The orderer and the address on file *)

Lemma left_join_first_row {A B C} (keep : A -> bool) (on : A -> B -> bool)
    (f : A -> option B -> C) (rows : list A) (tbl : list B) :
  fetchone (map (fun '(a, b) => f a b)
                (filter (fun '(a, b) => keep a) (left_join rows tbl on)))
  = option_map (fun a => f a (fetchone (filter (on a) tbl))) (find keep rows).
Proof.
  induction rows as [|a rows IH]; [reflexivity|].
  unfold left_join. cbn [flat_map find]. fold (left_join rows tbl on).
  rewrite filter_app, map_app.
  destruct (keep a) eqn:Ha; cbn [option_map].
  - destruct (filter (on a) tbl) as [|b bs].
    + cbn. rewrite Ha. reflexivity.
    + rewrite (filter_joined_rows keep a (b :: bs)), Ha. reflexivity.
  - destruct (filter (on a) tbl) as [|b bs].
    + cbn. rewrite Ha. exact IH.
    + rewrite (filter_joined_rows keep a (b :: bs)), Ha. exact IH.
Qed.

Lemma addresses_of_account U l :
  filter (fun USD => Accounts.user_no U =? UserShippingDetails.user_id USD) l
  = rows_of_user (Accounts.user_no U) l.
Proof. apply filter_ext. intros USD. apply Z.eqb_sym. Qed.

Lemma get_orderer_info_eq user_no u :
  get_orderer_info user_no u
  = match find_account user_no (accounts u) with
    | None => Raise "UNAUTHORIZED"
    | Some U =>
        Ok (orderer_info_of U
              (fetchone (rows_of_user (Accounts.user_no U) (addresses u))))
    end.
Proof.
  unfold get_orderer_info, get_orderer_info_rows, find_account.
  rewrite (left_join_first_row
             (fun U => negb (Accounts.is_deleted U) && (Accounts.user_no U =? user_no))
             (fun U USD => Accounts.user_no U =? UserShippingDetails.user_id USD)
             orderer_info_of).
  destruct (find _ (accounts u)) as [U|]; cbn; [|reflexivity].
  now rewrite addresses_of_account.
Qed.

Lemma find_account_user user_no l U :
  find_account user_no l = Some U ->
  In U l /\ Accounts.is_deleted U = false /\ Accounts.user_no U = user_no.
Proof.
  unfold find_account. intros H. apply find_some in H. destruct H as (Hin & Hp).
  apply andb_prop in Hp. destruct Hp as (Hd & Hno).
  apply negb_true_iff in Hd. apply Z.eqb_eq in Hno. tauto.
Qed.

(** X9: [get_orderer_info] raises UNAUTHORIZED exactly when no account that
    is not deleted carries the number; otherwise it returns the name and
    email of the first such account with the fields of the user's first
    address row, all NULL when the user has no address on file.  Over the
    same users table it raises exactly when [select_user_existence] returns
    [None]. *)
Theorem get_orderer_info_spec user_no u :
  get_orderer_info user_no u
  = match find_account user_no (accounts u) with
    | None => Raise "UNAUTHORIZED"
    | Some U =>
        Ok (orderer_info_of U (fetchone (rows_of_user user_no (addresses u))))
    end
  /\ (forall U, orderer_info_of U None
                = {| OrdererInfo.orderer_name := Accounts.name U;
                     OrdererInfo.orderer_email := Accounts.email U;
                     OrdererInfo.receiver := None;
                     OrdererInfo.phone_number := None;
                     OrdererInfo.address := None;
                     OrdererInfo.additional_address := None;
                     OrdererInfo.zip_code := None |})
  /\ (forall d,
        users d = map user_of_account (accounts u) ->
        (fst (select_user_existence user_no d) = Ok None <->
         get_orderer_info user_no u = Raise "UNAUTHORIZED")).
Proof.
  assert (Heq : get_orderer_info user_no u
                = match find_account user_no (accounts u) with
                  | None => Raise "UNAUTHORIZED"
                  | Some U =>
                      Ok (orderer_info_of U
                            (fetchone (rows_of_user user_no (addresses u))))
                  end).
  { rewrite get_orderer_info_eq.
    destruct (find_account user_no (accounts u)) as [U|] eqn:HU; [|reflexivity].
    apply find_account_user in HU. destruct HU as (_ & _ & ->). reflexivity. }
  split; [exact Heq|]. split; [reflexivity|].
  intros d Husers. rewrite Heq. unfold select_user_existence. cbn [fst].
  rewrite Husers.
  assert (Hsame : forall l,
            fetchone
              (map Users.user_no
                   (filter (fun U => negb (Users.is_deleted U)
                                     && (Users.user_no U =? user_no))
                           (map user_of_account l)))
            = option_map Accounts.user_no (find_account user_no l)).
  { induction l as [|U l IH]; [reflexivity|]. unfold find_account in *. cbn.
    destruct (negb (Accounts.is_deleted U) && (Accounts.user_no U =? user_no));
      [reflexivity | exact IH]. }
  rewrite Hsame.
  destruct (find_account user_no (accounts u)); cbn;
    split; intros H; try discriminate; reflexivity.
Qed.

Lemma get_orderer_info_spec_witness :
  fst (select_user_existence 2 boundary_db) = Ok None
  /\ get_orderer_info 2 {| accounts := [sample_account];
                           addresses := [sample_address] |}
     = Raise "UNAUTHORIZED".
Proof.
  split; [reflexivity|].
  apply (proj2 (proj2 (get_orderer_info_spec 2
                         {| accounts := [sample_account];
                            addresses := [sample_address] |})) boundary_db).
  - reflexivity.
  - reflexivity.
Defined.

Lemma set_user_shipping_details_same d :
  set_user_shipping_details d (user_shipping_details d)
    (next_user_shipping_detail_no d) = d.
Proof. now destruct d. Qed.

Lemma overwrite_own_rows order_info l :
  map (overwrite_address order_info)
      (rows_of_user (OrderInfo.user_no order_info) l)
  = map (fun USD =>
           submitted_address (UserShippingDetails.user_shipping_detail_no USD)
             order_info)
        (rows_of_user (OrderInfo.user_no order_info) l).
Proof.
  apply map_ext_in. intros USD HUSD. apply rows_of_user_user in HUSD.
  unfold overwrite_address. now rewrite HUSD, Z.eqb_refl.
Qed.

Lemma overwrite_without_rows order_info l :
  rows_of_user (OrderInfo.user_no order_info) l = [] ->
  map (overwrite_address order_info) l = l.
Proof.
  intros Hnone. rewrite <- (map_id l) at 2. apply map_ext_in. intros USD HUSD.
  unfold overwrite_address.
  now rewrite (proj1 (filter_nil_iff _ _) Hnone USD HUSD).
Qed.

Lemma insert_user_shipping_details_info_eq order_info d :
  insert_user_shipping_details_info order_info d
  = (Ok 1,
     set_user_shipping_details d
       (user_shipping_details d
        ++ [submitted_address (next_user_shipping_detail_no d) order_info])
       (next_user_shipping_detail_no d + 1)).
Proof. reflexivity. Qed.

Lemma shipping_after_insert order_info d :
  rows_of_user (OrderInfo.user_no order_info)
    (user_shipping_details (snd (insert_user_shipping_details_info order_info d)))
  = rows_of_user (OrderInfo.user_no order_info) (user_shipping_details d)
    ++ [submitted_address (next_user_shipping_detail_no d) order_info].
Proof.
  rewrite insert_user_shipping_details_info_eq.
  cbn [snd user_shipping_details set_user_shipping_details].
  rewrite rows_of_user_app. f_equal. unfold rows_of_user. cbn.
  now rewrite Z.eqb_refl.
Qed.

Lemma shipping_after_update order_info d :
  rows_of_user (OrderInfo.user_no order_info)
    (user_shipping_details (snd (update_user_shipping_details_info order_info d)))
  = map (fun USD =>
           submitted_address (UserShippingDetails.user_shipping_detail_no USD)
             order_info)
        (rows_of_user (OrderInfo.user_no order_info) (user_shipping_details d)).
Proof.
  unfold update_user_shipping_details_info.
  cbn [snd user_shipping_details set_user_shipping_details].
  rewrite rows_of_user_overwrite. apply overwrite_own_rows.
Qed.

(** X10: the shipping fields written are the ones read back.  After
    [insert_user_shipping_details_info] for a user without an address, and
    after [update_user_shipping_details_info] for a user with one,
    [select_user_shipping_details_info] returns the submitted fields.  The
    two writes do not check which case holds: the update for a user without
    an address returns 1 and changes nothing, and the insert for a user
    with an address adds a further row for that user. *)
Theorem shipping_fields_read_back order_info d :
  let user_no := OrderInfo.user_no order_info in
  (rows_of_user user_no (user_shipping_details d) = [] ->
   fst (select_user_shipping_details_info order_info
          (snd (insert_user_shipping_details_info order_info d)))
   = Ok (Some (submitted_shipping_info order_info))
   /\ update_user_shipping_details_info order_info d = (Ok 1, d))
  /\ (rows_of_user user_no (user_shipping_details d) <> [] ->
      fst (select_user_shipping_details_info order_info
             (snd (update_user_shipping_details_info order_info d)))
      = Ok (Some (submitted_shipping_info order_info)))
  /\ fst (insert_user_shipping_details_info order_info d) = Ok 1
  /\ List.length
       (rows_of_user user_no
          (user_shipping_details
             (snd (insert_user_shipping_details_info order_info d))))
     = S (List.length (rows_of_user user_no (user_shipping_details d))).
Proof.
  intros user_no. split; [|split; [|split]].
  - intros Hnone. split.
    + unfold select_user_shipping_details_info. cbn [fst]. fold user_no.
      unfold user_no. rewrite shipping_after_insert. fold user_no.
      rewrite Hnone. reflexivity.
    + unfold update_user_shipping_details_info.
      rewrite (overwrite_without_rows order_info _ Hnone).
      now rewrite set_user_shipping_details_same.
  - intros Hsome. unfold select_user_shipping_details_info. cbn [fst].
    rewrite shipping_after_update. fold user_no.
    destruct (rows_of_user user_no (user_shipping_details d)) as [|USD rest];
      [contradiction|]. reflexivity.
  - reflexivity.
  - unfold user_no. rewrite shipping_after_insert, length_app. cbn. lia.
Qed.

Lemma shipping_fields_read_back_witness :
  fst (select_user_shipping_details_info (sample_order 1)
         (snd (insert_user_shipping_details_info (sample_order 1) empty_db)))
  = Ok (Some (submitted_shipping_info (sample_order 1)))
  /\ fst (select_user_shipping_details_info (sample_order 1)
            (snd (update_user_shipping_details_info (sample_order 1) addressed_db)))
     = Ok (Some (submitted_shipping_info (sample_order 1))).
Proof.
  split.
  - apply (proj1 (shipping_fields_read_back (sample_order 1) empty_db)).
    reflexivity.
  - apply (proj1 (proj2 (shipping_fields_read_back (sample_order 1) addressed_db))).
    discriminate.
Defined.

(** X11: the order form shows the address of the last order.  For an account
    that is not deleted, after the insert for a user without an address, or
    the update for a user with one, [get_orderer_info] over the written
    address table returns the account's name and email with the submitted
    shipping fields. *)
Theorem orderer_info_shows_submitted_address order_info l d U :
  let user_no := OrderInfo.user_no order_info in
  find_account user_no l = Some U ->
  (rows_of_user user_no (user_shipping_details d) = [] ->
   get_orderer_info user_no
     (with_accounts l (snd (insert_user_shipping_details_info order_info d)))
   = Ok (submitted_orderer_info U order_info))
  /\ (rows_of_user user_no (user_shipping_details d) <> [] ->
      get_orderer_info user_no
        (with_accounts l (snd (update_user_shipping_details_info order_info d)))
      = Ok (submitted_orderer_info U order_info)).
Proof.
  intros user_no HU.
  pose proof (find_account_user _ _ _ HU) as (_ & _ & Hno).
  split; intros Hrows; rewrite get_orderer_info_eq;
    unfold with_accounts; cbn [accounts addresses]; fold user_no; rewrite HU, Hno;
    unfold user_no.
  - rewrite shipping_after_insert. fold user_no. rewrite Hrows. reflexivity.
  - rewrite shipping_after_update. fold user_no.
    destruct (rows_of_user user_no (user_shipping_details d)) as [|USD rest];
      [contradiction|]. reflexivity.
Qed.

Lemma orderer_info_shows_submitted_address_witness :
  get_orderer_info 1
    (with_accounts [sample_account]
       (snd (update_user_shipping_details_info (sample_order 1) addressed_db)))
  = Ok (submitted_orderer_info sample_account (sample_order 1)).
Proof.
  apply (proj2 (orderer_info_shows_submitted_address (sample_order 1)
                  [sample_account] addressed_db sample_account eq_refl)).
  discriminate.
Defined.

(** ** Pages of the user list *)

Lemma firstn_add_skipn {A} (n m : nat) (l : list A) :
  firstn (n + m) l = firstn n l ++ firstn m (skipn n l).
Proof.
  revert l. induction n as [|n IH]; intros l; [reflexivity|].
  destruct l as [|a l]; cbn.
  - now rewrite firstn_nil.
  - now rewrite IH.
Qed.

Lemma limit_offset_ok {A} limit offset (rows : list A) :
  0 <= limit -> 0 <= offset ->
  limit_offset limit offset rows
  = Ok (firstn (Z.to_nat limit) (skipn (Z.to_nat offset) rows)).
Proof.
  intros Hl Ho. unfold limit_offset.
  now rewrite (proj2 (Z.ltb_ge _ _) Hl), (proj2 (Z.ltb_ge _ _) Ho).
Qed.

(** X12: [get_user_list] pages through the users in a fixed order.  With
    limit and offset that are not negative it returns at most [limit] rows;
    the page at [offset] followed by the page at [offset + limit] is the page
    of [2 * limit] rows at [offset]; an offset at or past the number of rows
    gives the empty page.  A negative limit or offset raises. *)
Theorem get_user_list_pages limit offset u :
  0 <= limit ->
  0 <= offset ->
  exists page next,
    get_user_list {| Pagination.limit := limit; Pagination.offset := offset |} u
    = Ok page
    /\ get_user_list {| Pagination.limit := limit;
                        Pagination.offset := offset + limit |} u
       = Ok next
    /\ get_user_list {| Pagination.limit := 2 * limit;
                        Pagination.offset := offset |} u
       = Ok (page ++ next)
    /\ rowcount page <= limit
    /\ (rowcount (get_user_list_rows u) <= offset -> page = [])
    /\ (forall l o, l < 0 \/ o < 0 ->
          get_user_list {| Pagination.limit := l; Pagination.offset := o |} u
          = Raise "ProgrammingError").
Proof.
  intros Hl Ho. unfold get_user_list. cbn [Pagination.limit Pagination.offset].
  rewrite !limit_offset_ok by lia.
  eexists. eexists. split; [reflexivity|]. split; [reflexivity|].
  split; [|split; [|split]].
  - f_equal. replace (Z.to_nat (2 * limit)) with (Z.to_nat limit + Z.to_nat limit)%nat
      by lia.
    rewrite firstn_add_skipn, skipn_skipn. do 3 f_equal. lia.
  - unfold rowcount. rewrite length_firstn. lia.
  - unfold rowcount. intros Hpast. rewrite skipn_all2 by lia. apply firstn_nil.
  - intros l o Hneg. unfold limit_offset.
    destruct Hneg as [H | H]; apply Z.ltb_lt in H; rewrite H;
      [reflexivity | now rewrite orb_true_r].
Qed.

Lemma get_user_list_pages_witness :
  exists page,
    get_user_list {| Pagination.limit := 1; Pagination.offset := 0 |}
      {| accounts := [sample_account]; addresses := [sample_address] |}
    = Ok page
    /\ rowcount page <= 1.
Proof.
  destruct (get_user_list_pages 1 0
              {| accounts := [sample_account]; addresses := [sample_address] |})
    as (page & next & Hpage & _ & _ & Hlen & _).
  - lia.
  - lia.
  - exists page. split; assumption.
Defined.

Lemma no_address_rows U l :
  filter (fun USD => Accounts.user_no U =? UserShippingDetails.user_id USD) l = [] ->
  rows_of_user (Accounts.user_no U) l = [].
Proof. now rewrite addresses_of_account. Qed.

Lemma user_list_length (keep : Accounts.row -> bool) l addrs :
  Nat.le
    (List.length (filter keep l))
    (List.length
       (filter (fun '(U, USD) => keep U)
          (left_join l addrs
             (fun U (USD : UserShippingDetails.row) =>
                Accounts.user_no U =? UserShippingDetails.user_id USD))))
  /\ (one_address_per_user addrs ->
      List.length
        (filter (fun '(U, USD) => keep U)
           (left_join l addrs
              (fun U (USD : UserShippingDetails.row) =>
                 Accounts.user_no U =? UserShippingDetails.user_id USD)))
      = List.length (filter keep l)).
Proof.
  induction l as [|U l (IHle & IHeq)]; [split; reflexivity|].
  unfold left_join. cbn [flat_map filter].
  match goal with
  | |- context [flat_map ?g l] =>
      change (flat_map g l)
        with (left_join l addrs
                (fun U USD => Accounts.user_no U =? UserShippingDetails.user_id USD))
  end.
  rewrite filter_app, length_app.
  pose proof (addresses_of_account U addrs) as Hrows.
  destruct (filter (fun USD => Accounts.user_no U =? UserShippingDetails.user_id USD)
              addrs) as [|USD rest] eqn:Hf.
  - cbn [filter]. destruct (keep U); cbn [List.length]; split.
    + lia.
    + intros Hone. rewrite (IHeq Hone). reflexivity.
    + lia.
    + intros Hone. rewrite (IHeq Hone). reflexivity.
  - rewrite (filter_joined_rows keep U (USD :: rest)).
    destruct (keep U); cbn [List.length map]; split.
    + lia.
    + intros Hone. rewrite (IHeq Hone).
      specialize (Hone (Accounts.user_no U)). rewrite <- Hrows in Hone.
      cbn [List.length] in Hone. destruct rest; [reflexivity | cbn in Hone; lia].
    + lia.
    + intros Hone. rewrite (IHeq Hone). reflexivity.
Qed.

(** X13: [get_total_user] never exceeds the number of rows of the unpaged
    user list, and equals it when no user has two address rows; a page of
    [get_user_list] then holds [min limit (total - offset)] rows, none when
    the offset is past the total. *)
Theorem get_total_user_counts_the_list u :
  get_total_user u <= rowcount (get_user_list_rows u)
  /\ (one_address_per_user (addresses u) ->
      rowcount (get_user_list_rows u) = get_total_user u
      /\ forall limit offset,
           0 <= limit -> 0 <= offset ->
           exists page,
             get_user_list {| Pagination.limit := limit;
                              Pagination.offset := offset |} u = Ok page
             /\ rowcount page
                = Z.min limit (Z.max 0 (get_total_user u - offset))).
Proof.
  unfold get_total_user, get_user_list_rows, rowcount.
  rewrite length_map.
  destruct (user_list_length (fun U => negb (Accounts.is_deleted U))
              (accounts u) (addresses u)) as (Hle & Heq).
  split; [lia|].
  intros Hone. specialize (Heq Hone). split; [lia|].
  intros limit offset Hl Ho. unfold get_user_list.
  cbn [Pagination.limit Pagination.offset].
  rewrite limit_offset_ok by assumption. eexists. split; [reflexivity|].
  unfold get_user_list_rows.
  rewrite length_firstn, length_skipn, length_map, Heq. lia.
Qed.

Lemma get_total_user_counts_the_list_witness :
  rowcount (get_user_list_rows
              {| accounts := [sample_account]; addresses := [sample_address] |})
  = get_total_user {| accounts := [sample_account]; addresses := [sample_address] |}.
Proof.
  apply (proj2 (get_total_user_counts_the_list
                  {| accounts := [sample_account]; addresses := [sample_address] |})).
  intros user_no. unfold rows_of_user. cbn [addresses filter].
  match goal with
  | |- context [if ?b then _ else _] => destruct b
  end; simpl; lia.
Defined.

(** ** The list of completed orders and its count *)

Lemma length_insert_by {A} (le : A -> A -> bool) x l :
  List.length (insert_by le x l) = S (List.length l).
Proof.
  induction l as [|y l IH]; [reflexivity|]. cbn.
  destruct (le x y); cbn; [reflexivity | now rewrite IH].
Qed.

Lemma length_sort_by {A} (le : A -> A -> bool) l :
  List.length (sort_by le l) = List.length l.
Proof.
  induction l as [|x l IH]; [reflexivity|].
  change (sort_by le (x :: l)) with (insert_by le x (sort_by le l)).
  now rewrite length_insert_by, IH.
Qed.

Lemma in_insert_by {A} (le : A -> A -> bool) x l a :
  In a (insert_by le x l) <-> a = x \/ In a l.
Proof.
  induction l as [|y l IH]; cbn; [intuition|].
  destruct (le x y); cbn; [intuition|]. rewrite IH. intuition.
Qed.

Lemma in_sort_by {A} (le : A -> A -> bool) l a :
  In a (sort_by le l) <-> In a l.
Proof.
  induction l as [|x l IH]; [reflexivity|].
  change (sort_by le (x :: l)) with (insert_by le x (sort_by le l)).
  rewrite in_insert_by, IH. cbn. intuition.
Qed.

Lemma insert_by_sorted {A} (le : A -> A -> bool) x l :
  (forall a b, le a b = false -> le b a = true) ->
  (forall a b c, le a b = true -> le b c = true -> le a c = true) ->
  StronglySorted (fun a b => le a b = true) l ->
  StronglySorted (fun a b => le a b = true) (insert_by le x l).
Proof.
  intros Htotal Htrans. induction l as [|y l IH]; intros Hsorted; cbn.
  - constructor; constructor.
  - apply StronglySorted_inv in Hsorted. destruct Hsorted as (Hl & Hy).
    destruct (le x y) eqn:Hxy.
    + constructor; [now constructor|]. constructor; [assumption|].
      rewrite Forall_forall in *. intros z Hz. eapply Htrans; eauto.
    + constructor; [now apply IH|].
      rewrite Forall_forall in *. intros z Hz. apply in_insert_by in Hz.
      destruct Hz as [-> | Hz]; [now apply Htotal | now apply Hy].
Qed.

Lemma sort_by_sorted {A} (le : A -> A -> bool) l :
  (forall a b, le a b = false -> le b a = true) ->
  (forall a b c, le a b = true -> le b c = true -> le a c = true) ->
  StronglySorted (fun a b => le a b = true) (sort_by le l).
Proof.
  intros Htotal Htrans. induction l as [|x l IH]; [constructor|].
  change (sort_by le (x :: l)) with (insert_by le x (sort_by le l)).
  now apply insert_by_sorted.
Qed.

Lemma sorted_skipn {A} (R : A -> A -> Prop) n l :
  StronglySorted R l -> StronglySorted R (skipn n l).
Proof.
  revert l. induction n as [|n IH]; intros l Hl; [assumption|].
  destruct l as [|a l]; [constructor|]. cbn. apply IH.
  now apply StronglySorted_inv in Hl.
Qed.

Lemma in_firstn {A} n (l : list A) a : In a (firstn n l) -> In a l.
Proof.
  intros H. rewrite <- (firstn_skipn n l). apply in_or_app. now left.
Qed.

Lemma in_skipn {A} n (l : list A) a : In a (skipn n l) -> In a l.
Proof.
  intros H. rewrite <- (firstn_skipn n l). apply in_or_app. now right.
Qed.

Lemma sorted_firstn {A} (R : A -> A -> Prop) n l :
  StronglySorted R l -> StronglySorted R (firstn n l).
Proof.
  revert l. induction n as [|n IH]; intros l Hl; [constructor|].
  destruct l as [|a l]; [constructor|]. cbn.
  apply StronglySorted_inv in Hl. destruct Hl as (Hl & Ha).
  constructor; [now apply IH|].
  rewrite Forall_forall in *. intros z Hz. apply Ha. now apply in_firstn in Hz.
Qed.

Lemma sorted_map {A B} (f : A -> B) (R : B -> B -> Prop) l :
  StronglySorted (fun a b => R (f a) (f b)) l -> StronglySorted R (map f l).
Proof.
  induction 1 as [|a l Hl IH Ha]; cbn; constructor; [assumption|].
  rewrite Forall_forall in *. intros b Hb. apply in_map_iff in Hb.
  destruct Hb as (x & <- & Hx). now apply Ha.
Qed.

Lemma sorted_weaken {A} (R R' : A -> A -> Prop) l :
  (forall a b, R a b -> R' a b) -> StronglySorted R l -> StronglySorted R' l.
Proof.
  intros HR. induction 1 as [|a l Hl IH Ha]; constructor; [assumption|].
  eapply Forall_impl; [|exact Ha]. intros b. apply HR.
Qed.

Lemma completed_of_time row :
  OrderCompleted.order_time (completed_of row) = completed_time row.
Proof. now destruct row as [[[[[[[[[P1 P3] P2] P8] P4] P5] P6] P9] P7] P11]. Qed.

(** X14: [get_total_num] counts the rows [get_ordercompleted_list] pages
    through: under the same filter, with limit and offset that are not
    negative, the page holds [min limit (total - offset)] rows, none when the
    offset is past the total; a negative limit or offset raises. *)
Theorem get_total_num_counts_the_list like str_eq filter_info d :
  (0 <= FilterInfo.limit filter_info ->
   0 <= FilterInfo.offset filter_info ->
   exists page,
     get_ordercompleted_list like str_eq filter_info d = Ok page
     /\ rowcount page
        = Z.min (FilterInfo.limit filter_info)
            (Z.max 0 (get_total_num like str_eq filter_info d
                      - FilterInfo.offset filter_info)))
  /\ (FilterInfo.limit filter_info < 0 \/ FilterInfo.offset filter_info < 0 ->
      get_ordercompleted_list like str_eq filter_info d = Raise "ProgrammingError").
Proof.
  unfold get_ordercompleted_list, get_total_num. split.
  - intros Hl Ho. rewrite limit_offset_ok by assumption.
    eexists. split; [reflexivity|]. unfold rowcount.
    rewrite length_firstn, length_skipn, length_map, length_sort_by. lia.
  - intros Hneg. unfold limit_offset.
    destruct Hneg as [H | H]; apply Z.ltb_lt in H; rewrite H;
      [reflexivity | now rewrite orb_true_r].
Qed.

Lemma get_total_num_counts_the_list_witness :
  exists page,
    get_ordercompleted_list (fun _ _ => true) String.eqb (no_filter 10) boundary_db
    = Ok page
    /\ rowcount page = 2.
Proof.
  destruct (proj1 (get_total_num_counts_the_list (fun _ _ => true) String.eqb
                     (no_filter 10) boundary_db))
    as (page & Hpage & Hcount).
  - cbn. lia.
  - cbn. lia.
  - exists page. split; [exact Hpage|]. rewrite Hcount. reflexivity.
Defined.

Lemma completed_rows_sound like str_eq filter_info d row :
  In row (completed_rows like str_eq filter_info d) ->
  exists P1 P3,
    In P1 (orders d) /\ In P3 (orders_details d)
    /\ OrdersDetails.order_id P3 = Orders.order_no P1
    /\ OrdersDetails.order_status_id P3 = 1
    /\ on_given (FilterInfo.from_date filter_info)
         (fun from_date => OrdersDetails.start_time P3 >? from_date) = true
    /\ on_given (FilterInfo.to_date filter_info)
         (fun to_date => OrdersDetails.start_time P3 <? to_date) = true
    /\ on_given (given_Z (FilterInfo.order_id filter_info))
         (fun order_id => Orders.order_no P1 =? order_id) = true
    /\ OrderCompleted.order_no (completed_of row) = Orders.order_no P1
    /\ OrderCompleted.order_detail_no (completed_of row)
       = OrdersDetails.order_detail_no P3
    /\ OrderCompleted.order_time (completed_of row) = OrdersDetails.start_time P3
    /\ OrderCompleted.total_price (completed_of row)
       = OrdersDetails.total_price P3.
Proof.
  unfold completed_rows. cbv zeta. intros Hin.
  apply filter_In in Hin. destruct Hin as (Hin & Hwhere).
  destruct row as [[[[[[[[[P1 P3] P2] P8] P4] P5] P6] P9] P7] P11].
  apply in_inner_join in Hin. destruct Hin as (Hin & _ & _).
  apply in_inner_join in Hin. destruct Hin as (Hin & _ & _).
  apply in_inner_join in Hin. destruct Hin as (Hin & _ & _).
  apply in_inner_join in Hin. destruct Hin as (Hin & _ & _).
  apply in_inner_join in Hin. destruct Hin as (Hin & _ & _).
  apply in_inner_join in Hin. destruct Hin as (Hin & _ & _).
  apply in_inner_join in Hin. destruct Hin as (Hin & _ & _).
  apply in_inner_join in Hin. destruct Hin as (Hin & _ & _).
  apply in_inner_join in Hin. destruct Hin as (H1 & H3 & Hon).
  apply andb_prop in Hon. destruct Hon as (Hon & Hto).
  apply andb_prop in Hon. destruct Hon as (Hon & Hfrom).
  apply andb_prop in Hon. destruct Hon as (Hid & Hstatus).
  apply Z.eqb_eq in Hid, Hstatus.
  exists P1, P3. cbn. repeat split; try assumption. now symmetry.
Qed.

(** X15: every row of a page of [get_ordercompleted_list] belongs to an
    order detail in status 1 and shows its stored time and total; with a
    from date the order time lies strictly after it, with a to date strictly
    before it, and with an order id other than 0 the row is of that order.
    The order times of the page ascend with a sort filter and descend
    without. *)
Theorem get_ordercompleted_list_page like str_eq filter_info d page :
  get_ordercompleted_list like str_eq filter_info d = Ok page ->
  Forall (fun row =>
            (exists P3,
                In P3 (orders_details d)
                /\ OrdersDetails.order_status_id P3 = 1
                /\ OrdersDetails.order_id P3 = OrderCompleted.order_no row
                /\ OrdersDetails.order_detail_no P3
                   = OrderCompleted.order_detail_no row
                /\ OrdersDetails.start_time P3 = OrderCompleted.order_time row
                /\ OrdersDetails.total_price P3 = OrderCompleted.total_price row)
            /\ (forall from_date,
                  FilterInfo.from_date filter_info = Some from_date ->
                  from_date < OrderCompleted.order_time row)
            /\ (forall to_date,
                  FilterInfo.to_date filter_info = Some to_date ->
                  OrderCompleted.order_time row < to_date)
            /\ (forall order_id,
                  FilterInfo.order_id filter_info = Some order_id ->
                  order_id <> 0 ->
                  OrderCompleted.order_no row = order_id))
         page
  /\ StronglySorted (in_order (FilterInfo.sort filter_info))
       (map OrderCompleted.order_time page).
Proof.
  unfold get_ordercompleted_list, limit_offset.
  destruct ((FilterInfo.limit filter_info <? 0)
            || (FilterInfo.offset filter_info <? 0)); [discriminate|].
  intros Hpage. injection Hpage as <-. split.
  - apply Forall_forall. intros row Hrow.
    apply in_firstn, in_skipn, in_map_iff in Hrow.
    destruct Hrow as (joined & <- & Hjoined). apply in_sort_by in Hjoined.
    destruct (completed_rows_sound _ _ _ _ _ Hjoined)
      as (P1 & P3 & _ & H3 & Hid & Hstatus & Hfrom & Hto & Horder
          & Hno & Hdetail & Htime & Htotal).
    rewrite Hno, Hdetail, Htime, Htotal.
    split; [exists P3; repeat split; assumption|].
    split; [|split].
    + intros from_date Hgiven. rewrite Hgiven in Hfrom. cbn in Hfrom.
      apply Z.gtb_lt in Hfrom. exact Hfrom.
    + intros to_date Hgiven. rewrite Hgiven in Hto. cbn in Hto.
      now apply Z.ltb_lt in Hto.
    + intros order_id Hgiven Hnonzero. rewrite Hgiven in Horder. cbn in Horder.
      rewrite (proj2 (Z.eqb_neq _ _) Hnonzero) in Horder. cbn in Horder.
      now apply Z.eqb_eq in Horder.
  - rewrite <- firstn_map, <- skipn_map, map_map.
    apply sorted_firstn, sorted_skipn.
    rewrite (map_ext _ completed_time completed_of_time).
    apply sorted_map.
    eapply sorted_weaken;
      [|apply (sort_by_sorted (completed_order filter_info))].
    + intros a b. unfold completed_order, in_order.
      destruct (FilterInfo.sort filter_info); intros H;
        [apply Z.leb_le in H | apply Z.geb_le in H]; exact H.
    + intros a b. unfold completed_order.
      destruct (FilterInfo.sort filter_info); intros H;
        [apply Z.leb_gt in H; apply Z.leb_le; lia
        | rewrite Z.geb_leb in *; apply Z.leb_gt in H; apply Z.leb_le; lia].
    + intros a b c. unfold completed_order.
      destruct (FilterInfo.sort filter_info); intros H1 H2;
        [apply Z.leb_le in H1, H2; apply Z.leb_le; lia
        | rewrite Z.geb_leb in *; apply Z.leb_le in H1, H2; apply Z.leb_le; lia].
Qed.

Lemma get_ordercompleted_list_page_witness :
  exists page,
    get_ordercompleted_list (fun _ _ => true) String.eqb (no_filter 10) boundary_db
    = Ok page
    /\ StronglySorted (in_order false) (map OrderCompleted.order_time page).
Proof.
  eexists. split; [reflexivity|].
  apply (proj2 (get_ordercompleted_list_page (fun _ _ => true) String.eqb
                  (no_filter 10) boundary_db _ eq_refl)).
Defined.

(** ** Status codes of the product endpoints *)

(** X16: the catalog list endpoint answers 200 or 500 and never 400.  It
    answers 200 exactly when the connection is there and the product list
    is resolved, and 500 with NO_DATABASE_CONNECTION exactly when
    [get_connection] returns a falsy value.  When [get_connection] or the
    product list raises, the handler raises a TypeError in its turn and the
    view returns no response.  The body of an answer is a message exactly
    when the status is not 200, and the data member is never null. *)
Theorem product_list_status (connection product : Type)
    (get_connection : result (option connection))
    (select_product_list : connection -> result (option (list product))) :
  let response := ProductList.product_list get_connection select_product_list in
  ((exists body, response = Ok (body, 200)) <->
   exists db_connection products,
     get_connection = Ok (Some db_connection)
     /\ select_product_list db_connection = Ok products)
  /\ (response = Ok (ProductList.Message "NO_DATABASE_CONNECTION", 500) <->
      get_connection = Ok None)
  /\ ((exists body, response = Ok (body, 500)) <-> get_connection = Ok None)
  /\ (response = Raise "TypeError" <->
      (exists e, get_connection = Raise e)
      \/ (exists db_connection e,
            get_connection = Ok (Some db_connection)
            /\ select_product_list db_connection = Raise e))
  /\ (forall msg, response = Raise msg -> msg = "TypeError")
  /\ (forall body status,
        response = Ok (body, status) ->
        (status = 200 \/ status = 500)
        /\ status <> 400
        /\ (status <> 200 <-> exists message, body = ProductList.Message message)
        /\ body <> ProductList.Data None).
Proof.
  unfold ProductList.product_list, ProductList.get_product_list.
  destruct get_connection as [[db_connection|]|e]; cbn.
  - destruct (select_product_list db_connection) as [products|e] eqn:Hlist; cbn.
    + assert (Hresp : exists data,
                (if ProductList.not_ products
                 then Ok (ProductList.Data (Some []), 200)
                 else Ok (ProductList.Data products, 200))
                = Ok (ProductList.Data (Some data), 200)).
      { destruct products as [[|p ps]|]; cbn; eauto. }
      destruct Hresp as (data & ->).
      split; [|split; [|split; [|split; [|split]]]].
      * split; [|eauto]. intros _. exists db_connection, products. now split.
      * split; discriminate.
      * split; [|discriminate]. intros (body & Hb). discriminate.
      * split; [discriminate|].
        intros [(e & He) | (c & e & Hc & He)]; [discriminate|].
        injection Hc as <-. congruence.
      * discriminate.
      * intros body status Hb. injection Hb as <- <-.
        split; [now left|]. split; [discriminate|]. split; [|discriminate].
        split; [intros Hne; now contradiction Hne|].
        intros (message & Hm). discriminate.
    + split; [|split; [|split; [|split; [|split]]]].
      * split; [intros (body & Hb); discriminate|].
        intros (c & products & Hc & Hp). injection Hc as <-. congruence.
      * split; discriminate.
      * split; [|discriminate]. intros (body & Hb). discriminate.
      * split; [|reflexivity]. intros _. right. exists db_connection, e.
        now split.
      * intros msg Hm. now injection Hm as <-.
      * discriminate.
  - split; [|split; [|split; [|split; [|split]]]].
    + split; [intros (body & Hb); discriminate|].
      intros (c & products & Hc & _). discriminate.
    + split; reflexivity.
    + split; [reflexivity|]. eauto.
    + split; [discriminate|].
      intros [(e & He) | (c & e & Hc & _)]; discriminate.
    + discriminate.
    + intros body status Hb. injection Hb as <- <-.
      split; [now right|]. split; [discriminate|]. split; [|discriminate].
      split; [|discriminate]. intros _. now exists "NO_DATABASE_CONNECTION".
  - split; [|split; [|split; [|split; [|split]]]].
    + split; [intros (body & Hb); discriminate|].
      intros (c & products & Hc & _). discriminate.
    + split; discriminate.
    + split; [|discriminate]. intros (body & Hb). discriminate.
    + split; [|reflexivity]. intros _. left. now exists e.
    + intros msg Hm. now injection Hm as <-.
    + discriminate.
Qed.

Lemma product_list_status_witness :
  (exists body,
      ProductList.product_list (Ok (Some tt))
        (fun _ : unit => Ok (Some [7; 8])) = Ok (body, 200))
  /\ ProductList.product_list (@Ok (option unit) None)
       (fun _ : unit => Ok (Some [7; 8]))
     = Ok (ProductList.Message "NO_DATABASE_CONNECTION", 500)
  /\ ProductList.product_list (@Raise (option unit) "boom")
       (fun _ : unit => Ok (Some [7; 8]))
     = Raise "TypeError".
Proof.
  split; [|split].
  - apply (proj2 (proj1 (product_list_status unit Z (Ok (Some tt))
                           (fun _ : unit => Ok (Some [7; 8]))))).
    exists tt, (Some [7; 8]). now split.
  - apply (proj2 (proj1 (proj2 (product_list_status unit Z
                                  (@Ok (option unit) None)
                                  (fun _ : unit => Ok (Some [7; 8])))))).
    reflexivity.
  - apply (proj2 (proj1 (proj2 (proj2 (proj2
             (product_list_status unit Z (@Raise (option unit) "boom")
                (fun _ : unit => Ok (Some [7; 8])))))))).
    left. now exists "boom".
Defined.

Lemma getitem_missing args key :
  (forall v, ~ In (key, v) args) ->
  ProductDetailsView.getitem args key
  = ProductDetailsView.Raises (ProductDetailsView.KeyError key).
Proof.
  induction args as [|[k v] args IH]; intros Hmissing; [reflexivity|]. cbn.
  destruct (String.eqb_spec k key) as [-> | Hne].
  - exfalso. apply (Hmissing v). now left.
  - apply IH. intros v' Hin. apply (Hmissing v'). now right.
Qed.

Lemma getitem_found args key v :
  ProductDetailsView.getitem args key = ProductDetailsView.Returns v ->
  In (key, v) args.
Proof.
  induction args as [|[k v'] args IH]; [discriminate|]. cbn.
  destruct (String.eqb_spec k key) as [-> | Hne].
  - intros H. injection H as ->. now left.
  - intros H. right. now apply IH.
Qed.

(** X17: the product detail endpoint answers with the remaining options
    exactly when the connection is there, the details load, the request has
    query parameters with a color_id among them and the options load; it
    answers with the details exactly when the connection is there, the
    details load and the request has no query parameter.  The details are
    loaded first in both cases, so their failure is the answer even when
    only options are asked for; query parameters without a color_id give
    400 KEY_ERROR. *)
Theorem product_details_answers (connection details options : Type)
    (get_connection : ProductDetailsView.outcome (option connection))
    (get_product_details : Z -> connection -> ProductDetailsView.outcome details)
    (get_etc_options :
       Z * string -> connection -> ProductDetailsView.outcome options)
    (product_id : Z) (args : list (string * string)) :
  let response :=
    ProductDetailsView.product_details get_connection get_product_details
      get_etc_options product_id args in
  (forall etc_options,
      response = (ProductDetailsView.Options etc_options, 200) <->
      exists db_connection details_ color_id,
        get_connection = ProductDetailsView.Returns (Some db_connection)
        /\ get_product_details product_id db_connection
           = ProductDetailsView.Returns details_
        /\ args <> []
        /\ ProductDetailsView.getitem args "color_id"
           = ProductDetailsView.Returns color_id
        /\ get_etc_options (product_id, color_id) db_connection
           = ProductDetailsView.Returns etc_options)
  /\ (forall details_,
        response = (ProductDetailsView.Details details_, 200) <->
        exists db_connection,
          get_connection = ProductDetailsView.Returns (Some db_connection)
          /\ get_product_details product_id db_connection
             = ProductDetailsView.Returns details_
          /\ args = [])
  /\ (forall db_connection e,
        get_connection = ProductDetailsView.Returns (Some db_connection) ->
        get_product_details product_id db_connection
        = ProductDetailsView.Raises e ->
        response = ProductDetailsView.handle e)
  /\ (forall db_connection details_,
        get_connection = ProductDetailsView.Returns (Some db_connection) ->
        get_product_details product_id db_connection
        = ProductDetailsView.Returns details_ ->
        args <> [] ->
        (forall v, ~ In ("color_id", v) args) ->
        response = (ProductDetailsView.Message "KEY_ERROR", 400)).
Proof.
  unfold ProductDetailsView.product_details.
  split; [|split; [|split]].
  - intros etc_options. split.
    + destruct get_connection as [[db_connection|]|e];
        [| easy | destruct e; easy].
      destruct (get_product_details product_id db_connection) as [details_|e]
        eqn:Hd; [| destruct e; easy].
      destruct args as [|arg args']; [easy|].
      destruct (ProductDetailsView.getitem (arg :: args') "color_id")
        as [color_id|e] eqn:Hcolor; [| destruct e; easy].
      destruct (get_etc_options (product_id, color_id) db_connection)
        as [o|e] eqn:Hoptions; [| destruct e; easy].
      intros H. injection H as ->.
      exists db_connection, details_, color_id.
      repeat split; try assumption; try reflexivity. discriminate.
    + intros (db_connection & details_ & color_id & -> & Hd & Hargs & Hc & Ho).
      rewrite Hd. destruct args as [|arg args']; [contradiction|].
      now rewrite Hc, Ho.
  - intros details_. split.
    + destruct get_connection as [[db_connection|]|e];
        [| easy | destruct e; easy].
      destruct (get_product_details product_id db_connection) as [dt|e] eqn:Hd;
        [| destruct e; easy].
      destruct args as [|arg args'].
      * intros H. injection H as ->. now exists db_connection.
      * destruct (ProductDetailsView.getitem (arg :: args') "color_id")
          as [color_id|e]; [| destruct e; easy].
        destruct (get_etc_options (product_id, color_id) db_connection)
          as [o|e]; [easy | destruct e; easy].
    + intros (db_connection & -> & Hd & ->). now rewrite Hd.
  - intros db_connection e -> Hd. now rewrite Hd.
  - intros db_connection details_ -> Hd Hargs Hmissing. rewrite Hd.
    destruct args as [|arg args']; [contradiction|].
    now rewrite (getitem_missing (arg :: args') "color_id" Hmissing).
Qed.

Lemma product_details_answers_witness :
  ProductDetailsView.product_details
    (ProductDetailsView.Returns (Some tt))
    (fun (_ : Z) (_ : unit) => ProductDetailsView.Returns 5)
    (fun (_ : Z * string) (_ : unit) => ProductDetailsView.Returns true)
    1 [("size_id", "2")]
  = (ProductDetailsView.Message "KEY_ERROR", 400).
Proof.
  apply (proj2 (proj2 (proj2
           (product_details_answers unit Z bool
              (ProductDetailsView.Returns (Some tt))
              (fun (_ : Z) (_ : unit) => ProductDetailsView.Returns 5)
              (fun (_ : Z * string) (_ : unit) => ProductDetailsView.Returns true)
              1 [("size_id", "2")]))) tt 5 eq_refl eq_refl).
  - discriminate.
  - intros v [H | []]. discriminate.
Defined.

Lemma quantity_range_agrees_with_product_info_witness :
  fst (select_product_info (sample_order 1) empty_db)
  = Raise "THIS_PRODUCT_DOES_NOT_EXISTS".
Proof.
  apply (proj1 (proj2 (quantity_range_agrees_with_product_info
                         (sample_order 1) empty_db))).
  reflexivity.
Defined.
